(** * Waybar [Group] module: drawer reveal / auto-hide controller

    A shallow embedding of [src/group.cpp].  The C++ object is a record,
    every member function is a function on that record, exceptions are an
    error result, and the timer thread's lambda is a resumption that
    suspends at its single [sleep_for].

    The collaborators that [group.cpp] calls but does not define are modelled
    at their interface: JsonCpp's [Json::Value] accessors, the Gtk widget
    state the code touches, and the sleeper thread's sleep/wake primitive. *)

From stdpp Require Import base numbers strings list.
From Stdlib Require Import QArith.

Set Warnings "-register-all".
Local Open Scope string_scope.
Local Open Scope Z_scope.

(** ** Exceptions *)

Inductive exn : Type :=
| RuntimeError (what : string)      (* std::runtime_error *)
| LogicError (what : string).       (* Json::LogicError *)

Inductive result (A : Type) : Type :=
| Ok (a : A)
| Throw (e : exn).
Arguments Ok {A} a.
Arguments Throw {A} e.

Definition result_bind {A B} (f : A -> result B) (m : result A) : result B :=
  match m with
  | Ok a => f a
  | Throw e => Throw e
  end.

#[global] Instance result_ret : MRet result := fun _ a => Ok a.
#[global] Instance result_mbind : MBind result := fun _ _ f m => result_bind f m.

Definition succeeds {A} (m : result A) : bool :=
  match m with Ok _ => true | Throw _ => false end.

(** ** JsonCpp values

    [Json::Value] has eight value types.  A real carries the finite double
    as a rational together with the text JsonCpp prints for it (the text is
    only ever observed through [asString]). *)

Module Json.

Inductive Value : Type :=
| nullValue
| intValue (n : Z)
| uintValue (n : Z)
| realValue (r : Q) (text : string)
| stringValue (s : string)
| booleanValue (b : bool)
| arrayValue (items : list Value)
| objectValue (members : list (string * Value)).

Definition minInt : Z := - 2 ^ 31.
Definition maxInt : Z := 2 ^ 31 - 1.
Definition maxUInt : Z := 2 ^ 32 - 1.

(** Decimal text of an integer, as [valueToString] prints it. *)
Definition digit (d : Z) : string :=
  String (Ascii.ascii_of_nat (48 + Z.to_nat d)) EmptyString.

Fixpoint digits (fuel : nat) (n : Z) : string :=
  match fuel with
  | O => ""
  | S fuel' =>
      if n <? 10 then digit n
      else digits fuel' (n / 10) +:+ digit (n mod 10)
  end.

Definition valueToString (n : Z) : string :=
  if n <? 0 then "-" +:+ digits (S (Z.to_nat (Z.log2 (- n)))) (- n)
  else digits (S (Z.to_nat (Z.log2 n))) n.

Definition InRange (r : Q) (lo hi : Z) : bool :=
  Qle_bool (inject_Z lo) r && Qle_bool r (inject_Z hi).

Definition IsIntegral (r : Q) : bool :=
  Z.rem (Qnum r) (Z.pos (Qden r)) =? 0.

(** The C++ cast of a double to an integer type truncates toward zero. *)
Definition truncate (r : Q) : Z := Z.quot (Qnum r) (Z.pos (Qden r)).

Definition isNull (v : Value) : bool :=
  match v with nullValue => true | _ => false end.

Definition isBool (v : Value) : bool :=
  match v with booleanValue _ => true | _ => false end.

Definition isString (v : Value) : bool :=
  match v with stringValue _ => true | _ => false end.

Definition isObject (v : Value) : bool :=
  match v with objectValue _ => true | _ => false end.

Definition isInt (v : Value) : bool :=
  match v with
  | intValue n => (minInt <=? n) && (n <=? maxInt)
  | uintValue n => n <=? maxInt
  | realValue r _ => InRange r minInt maxInt && IsIntegral r
  | _ => false
  end.

Definition isUInt (v : Value) : bool :=
  match v with
  | intValue n => (0 <=? n) && (n <=? maxUInt)
  | uintValue n => n <=? maxUInt
  | realValue r _ => InRange r 0 maxUInt && IsIntegral r
  | _ => false
  end.

Definition asInt (v : Value) : result Z :=
  match v with
  | intValue n =>
      if isInt v then Ok n else Throw (LogicError "LargestInt out of Int range")
  | uintValue n =>
      if isInt v then Ok n else Throw (LogicError "LargestUInt out of Int range")
  | realValue r _ =>
      if InRange r minInt maxInt then Ok (truncate r)
      else Throw (LogicError "double out of Int range")
  | nullValue => Ok 0
  | booleanValue b => Ok (if b then 1 else 0)
  | _ => Throw (LogicError "Value is not convertible to Int.")
  end.

Definition asUInt (v : Value) : result Z :=
  match v with
  | intValue n =>
      if isUInt v then Ok n else Throw (LogicError "LargestInt out of UInt range")
  | uintValue n =>
      if isUInt v then Ok n else Throw (LogicError "LargestUInt out of UInt range")
  | realValue r _ =>
      if InRange r 0 maxUInt then Ok (truncate r)
      else Throw (LogicError "double out of UInt range")
  | nullValue => Ok 0
  | booleanValue b => Ok (if b then 1 else 0)
  | _ => Throw (LogicError "Value is not convertible to UInt.")
  end.

Definition asBool (v : Value) : result bool :=
  match v with
  | booleanValue b => Ok b
  | nullValue => Ok false
  | intValue n => Ok (negb (n =? 0))
  | uintValue n => Ok (negb (n =? 0))
  | realValue r _ => Ok (negb (Qeq_bool r 0))
  | _ => Throw (LogicError "Value is not convertible to bool.")
  end.

Definition asString (v : Value) : result string :=
  match v with
  | nullValue => Ok ""
  | stringValue s => Ok s
  | booleanValue b => Ok (if b then "true" else "false")
  | intValue n => Ok (valueToString n)
  | uintValue n => Ok (valueToString n)
  | realValue _ text => Ok text
  | _ => Throw (LogicError "Type is not convertible to string")
  end.

(** [empty()]: null, or an array or object without elements. *)
Definition empty (v : Value) : bool :=
  match v with
  | nullValue => true
  | arrayValue items => Nat.eqb (length items) 0
  | objectValue members => Nat.eqb (length members) 0
  | _ => false
  end.

Fixpoint find_member (key : string) (members : list (string * Value)) : Value :=
  match members with
  | [] => nullValue
  | (k, v) :: rest => if String.eqb k key then v else find_member key rest
  end.

(** [operator[](const char* ) const]: the member, the null value when there
    is none, and a failed assertion on a value that is neither null nor an
    object. *)
Definition index (v : Value) (key : string) : result Value :=
  match v with
  | nullValue => Ok nullValue
  | objectValue members => Ok (find_member key members)
  | _ => Throw (LogicError
           "in Json::Value::operator[](char const*)const: requires objectValue")
  end.

(** [value == "literal"]: equal types and equal contents. *)
Definition equals_string (v : Value) (s : string) : bool :=
  match v with
  | stringValue t => String.eqb t s
  | _ => false
  end.

End Json.

(** ** The Gtk widget state that [group.cpp] reads and writes *)

Module Gtk.

Inductive Orientation : Type :=
| ORIENTATION_HORIZONTAL
| ORIENTATION_VERTICAL.

Inductive RevealerTransitionType : Type :=
| REVEALER_TRANSITION_TYPE_NONE
| REVEALER_TRANSITION_TYPE_CROSSFADE
| REVEALER_TRANSITION_TYPE_SLIDE_RIGHT
| REVEALER_TRANSITION_TYPE_SLIDE_LEFT
| REVEALER_TRANSITION_TYPE_SLIDE_UP
| REVEALER_TRANSITION_TYPE_SLIDE_DOWN.

Inductive PackType : Type :=
| PACK_START
| PACK_END.

(** [GdkNotifyType], the [detail] of a crossing event. *)
Inductive NotifyType : Type :=
| NOTIFY_ANCESTOR
| NOTIFY_VIRTUAL
| NOTIFY_INFERIOR
| NOTIFY_NONLINEAR
| NOTIFY_NONLINEAR_VIRTUAL
| NOTIFY_UNKNOWN.

Definition notify_eqb (a b : NotifyType) : bool :=
  match a, b with
  | NOTIFY_ANCESTOR, NOTIFY_ANCESTOR
  | NOTIFY_VIRTUAL, NOTIFY_VIRTUAL
  | NOTIFY_INFERIOR, NOTIFY_INFERIOR
  | NOTIFY_NONLINEAR, NOTIFY_NONLINEAR
  | NOTIFY_NONLINEAR_VIRTUAL, NOTIFY_NONLINEAR_VIRTUAL
  | NOTIFY_UNKNOWN, NOTIFY_UNKNOWN => true
  | _, _ => false
  end.

(** [GtkStateFlags] is a bit mask. *)
Definition StateFlags : Type := Z.
Definition STATE_FLAG_NORMAL : StateFlags := 0.
Definition STATE_FLAG_PRELIGHT : StateFlags := Z.shiftl 1 1.
Definition STATE_FLAG_DIR_LTR : StateFlags := Z.shiftl 1 7.
Definition STATE_FLAG_DIR_RTL : StateFlags := Z.shiftl 1 8.

(** The text direction bits are owned by the toolkit: [set_state_flags]
    neither sets nor clears them. *)
Definition ALLOWED_FLAGS : StateFlags :=
  Z.lnot (Z.lor STATE_FLAG_DIR_LTR STATE_FLAG_DIR_RTL).

(** A widget handed to [addWidget] is a reference; it is known by identity. *)
Definition Widget : Type := nat.

(** What a box holds: a module's widget, or the group's own revealer. *)
Inductive Child : Type :=
| ChildWidget (w : Widget)
| ChildRevealer.

Record Packing : Type := mkPacking {
  child : Child;
  expand : bool;
  fill : bool;
  pack : PackType
}.

Definition add_class (cls : string) (classes : list string) : list string :=
  if bool_decide (cls ∈ classes) then classes else classes ++ [cls].

Definition remove_class (cls : string) (classes : list string) : list string :=
  List.filter (fun c => negb (String.eqb c cls)) classes.

(** A box carries the style class of its orientation; the toolkit sets it
    when the box is made and swaps it when the orientation changes. *)
Definition orientation_class (o : Orientation) : string :=
  match o with
  | ORIENTATION_HORIZONTAL => "horizontal"
  | ORIENTATION_VERTICAL => "vertical"
  end.

Definition orientation_eqb (a b : Orientation) : bool :=
  match a, b with
  | ORIENTATION_HORIZONTAL, ORIENTATION_HORIZONTAL
  | ORIENTATION_VERTICAL, ORIENTATION_VERTICAL => true
  | _, _ => false
  end.

Record Box : Type := mkBox {
  orientation : Orientation;
  spacing : Z;
  name : string;
  style_classes : list string;
  state_flags : StateFlags;
  children : list Packing
}.

Definition new_Box (o : Orientation) (sp : Z) : Box :=
  mkBox o sp "" [orientation_class o] STATE_FLAG_NORMAL [].

Definition set_name (n : string) (b : Box) : Box :=
  mkBox (orientation b) (spacing b) n (style_classes b) (state_flags b) (children b).

Definition box_add_class (cls : string) (b : Box) : Box :=
  mkBox (orientation b) (spacing b) (name b) (add_class cls (style_classes b))
        (state_flags b) (children b).

(** Setting the orientation a box already has does nothing; another one
    adds its class and removes the class of the old one. *)
Definition set_orientation (o : Orientation) (b : Box) : Box :=
  if orientation_eqb (orientation b) o then b
  else mkBox o (spacing b) (name b)
             (remove_class (orientation_class (orientation b))
                (add_class (orientation_class o) (style_classes b)))
             (state_flags b) (children b).

(** [set_state_flags (flags, clear)]; the C++ default for [clear] is true:
    the given flags are turned on and every other allowed flag is turned
    off. *)
Definition set_state_flags (flags : StateFlags) (clear : bool) (b : Box) : Box :=
  let to_set := Z.land flags ALLOWED_FLAGS in
  let to_unset := if clear then Z.land (Z.lnot flags) ALLOWED_FLAGS else 0 in
  mkBox (orientation b) (spacing b) (name b) (style_classes b)
        (Z.land (Z.lor (state_flags b) to_set) (Z.lnot to_unset)) (children b).

Definition unset_state_flags (flags : StateFlags) (b : Box) : Box :=
  mkBox (orientation b) (spacing b) (name b) (style_classes b)
        (Z.land (state_flags b) (Z.lnot flags)) (children b).

Definition get_state_flags (b : Box) : StateFlags := state_flags b.

(** Both packing calls append to the box's child list; the pack type says
    from which end of the box the child is laid out. *)
Definition pack_start (c : Child) (e f : bool) (b : Box) : Box :=
  mkBox (orientation b) (spacing b) (name b) (style_classes b) (state_flags b)
        (children b ++ [mkPacking c e f PACK_START]).

Definition pack_end (c : Child) (e f : bool) (b : Box) : Box :=
  mkBox (orientation b) (spacing b) (name b) (style_classes b) (state_flags b)
        (children b ++ [mkPacking c e f PACK_END]).

Record Revealer : Type := mkRevealer {
  transition_type : RevealerTransitionType;
  transition_duration : Z;          (* guint, milliseconds *)
  reveal_child : bool;
  revealer_classes : list string;
  has_child : bool                  (* [revealer_box] was added *)
}.

(** A fresh [Gtk::Revealer] slides down over 250 ms and shows nothing. *)
Definition new_Revealer : Revealer :=
  mkRevealer REVEALER_TRANSITION_TYPE_SLIDE_DOWN 250 false [] false.

Definition set_transition_type (t : RevealerTransitionType) (r : Revealer) : Revealer :=
  mkRevealer t (transition_duration r) (reveal_child r) (revealer_classes r) (has_child r).

(** The duration parameter is a [guint]: an [int] argument wraps. *)
Definition set_transition_duration (d : Z) (r : Revealer) : Revealer :=
  mkRevealer (transition_type r) (d mod 2 ^ 32) (reveal_child r)
             (revealer_classes r) (has_child r).

Definition set_reveal_child (v : bool) (r : Revealer) : Revealer :=
  mkRevealer (transition_type r) (transition_duration r) v
             (revealer_classes r) (has_child r).

Definition revealer_add_class (cls : string) (r : Revealer) : Revealer :=
  mkRevealer (transition_type r) (transition_duration r) (reveal_child r)
             (add_class cls (revealer_classes r)) (has_child r).

Definition revealer_add (r : Revealer) : Revealer :=
  mkRevealer (transition_type r) (transition_duration r) (reveal_child r)
             (revealer_classes r) true.

(** The widgets of a box, in packing order, the revealer left out. *)
Fixpoint widgets_of (l : list Packing) : list Widget :=
  match l with
  | [] => []
  | p :: rest =>
      match child p with
      | ChildWidget w => w :: widgets_of rest
      | ChildRevealer => widgets_of rest
      end
  end.

End Gtk.

(** ** The sleeper thread *)

(** [std::chrono::seconds]: a count, or [seconds::max()], which the spec calls
    the disabled interval. *)
Inductive Duration : Type :=
| seconds_max
| seconds (n : Z).

(** Modelled from the spec: the sleeper thread of [util/sleeper_thread.hpp],
    which is not part of [group.cpp].  It runs the assigned task in a loop
    on a thread of its own, has a sleep that a wake-up cuts short, and a
    wake-up request that is a flag the sleep observes. *)
Record SleeperThread : Type := mkSleeperThread {
  task_assigned : bool;
  signal_ : bool
}.

Definition new_SleeperThread : SleeperThread := mkSleeperThread false false.

Definition assign_task (t : SleeperThread) : SleeperThread :=
  mkSleeperThread true (signal_ t).

Definition wake_up (t : SleeperThread) : SleeperThread :=
  mkSleeperThread (task_assigned t) true.

(** Modelled from the spec: how long [sleep_for d] sleeps, in seconds, when
    the wake-up (if any) comes [wake] seconds after the sleep began:
    "sleep for the interval, or until externally woken, whichever happens
    first; if the interval is disabled, sleep until woken only".  [None] is
    a sleep that does not end. *)
Definition sleep_for (d : Duration) (wake : option Z) : option Z :=
  match d, wake with
  | seconds_max, _ => wake
  | seconds n, None => Some n
  | seconds n, Some w => Some (Z.min n w)
  end.

(** A task that runs on state [S] and may suspend in a sleep; the state it
    resumes on is the one the other thread left behind meanwhile. *)
Inductive Task (S : Type) : Type :=
| Return (s : S)
| SleepFor (d : Duration) (s : S) (resume : S -> Task S).
Arguments Return {S} s.
Arguments SleepFor {S} d s resume.

(** ** The Group object *)

Record GdkEventCrossing : Type := mkCrossing { detail : Gtk.NotifyType }.
Record GdkEventButton : Type := mkButton { button : Z }.

Record Group : Type := mkGroup {
  name_ : string;
  config_ : Json.Value;
  event_box_ : bool;                (* [box] was added to the event box *)
  box : Gtk.Box;
  revealer_box : Gtk.Box;
  revealer : Gtk.Revealer;
  is_first_widget : bool;
  is_drawer : bool;
  click_to_reveal : bool;
  add_class_to_drawer_children : string;
  free_ : bool;
  reset_ : bool;
  interval_ : Duration;
  thread_ : SleeperThread
}.

Definition set_box (b : Gtk.Box) (g : Group) : Group :=
  mkGroup (name_ g) (config_ g) (event_box_ g) b (revealer_box g) (revealer g)
          (is_first_widget g) (is_drawer g) (click_to_reveal g)
          (add_class_to_drawer_children g) (free_ g) (reset_ g) (interval_ g)
          (thread_ g).

Definition set_revealer_box (b : Gtk.Box) (g : Group) : Group :=
  mkGroup (name_ g) (config_ g) (event_box_ g) (box g) b (revealer g)
          (is_first_widget g) (is_drawer g) (click_to_reveal g)
          (add_class_to_drawer_children g) (free_ g) (reset_ g) (interval_ g)
          (thread_ g).

Definition set_revealer (r : Gtk.Revealer) (g : Group) : Group :=
  mkGroup (name_ g) (config_ g) (event_box_ g) (box g) (revealer_box g) r
          (is_first_widget g) (is_drawer g) (click_to_reveal g)
          (add_class_to_drawer_children g) (free_ g) (reset_ g) (interval_ g)
          (thread_ g).

Definition set_is_first_widget (v : bool) (g : Group) : Group :=
  mkGroup (name_ g) (config_ g) (event_box_ g) (box g) (revealer_box g)
          (revealer g) v (is_drawer g) (click_to_reveal g)
          (add_class_to_drawer_children g) (free_ g) (reset_ g) (interval_ g)
          (thread_ g).

Definition set_free (v : bool) (g : Group) : Group :=
  mkGroup (name_ g) (config_ g) (event_box_ g) (box g) (revealer_box g)
          (revealer g) (is_first_widget g) (is_drawer g) (click_to_reveal g)
          (add_class_to_drawer_children g) v (reset_ g) (interval_ g)
          (thread_ g).

Definition set_reset (v : bool) (g : Group) : Group :=
  mkGroup (name_ g) (config_ g) (event_box_ g) (box g) (revealer_box g)
          (revealer g) (is_first_widget g) (is_drawer g) (click_to_reveal g)
          (add_class_to_drawer_children g) (free_ g) v (interval_ g)
          (thread_ g).

Definition set_thread (t : SleeperThread) (g : Group) : Group :=
  mkGroup (name_ g) (config_ g) (event_box_ g) (box g) (revealer_box g)
          (revealer g) (is_first_widget g) (is_drawer g) (click_to_reveal g)
          (add_class_to_drawer_children g) (free_ g) (reset_ g) (interval_ g) t.

Definition getPreferredTransitionType (is_vertical : bool)
  : Gtk.RevealerTransitionType :=
  if is_vertical then Gtk.REVEALER_TRANSITION_TYPE_SLIDE_UP
  else Gtk.REVEALER_TRANSITION_TYPE_SLIDE_LEFT.

Definition show_group (g : Group) : Group :=
  let g1 := set_box (Gtk.set_state_flags Gtk.STATE_FLAG_PRELIGHT true (box g)) g in
  set_revealer (Gtk.set_reveal_child true (revealer g1)) g1.

Definition hide_group (g : Group) : Group :=
  let g1 := set_box (Gtk.unset_state_flags Gtk.STATE_FLAG_PRELIGHT (box g)) g in
  set_revealer (Gtk.set_reveal_child false (revealer g1)) g1.

Definition handleMouseEnter (e : GdkEventCrossing) (g : Group) : bool * Group :=
  if negb (click_to_reveal g) then (false, show_group (set_free false g))
  else (false, g).

Definition handleMouseLeave (e : GdkEventCrossing) (g : Group) : bool * Group :=
  if negb (click_to_reveal g) && negb (Gtk.notify_eqb (detail e) Gtk.NOTIFY_INFERIOR)
  then (false, hide_group (set_free true g))
  else (false, g).

Definition handleToggle (e : GdkEventButton) (g : Group) : bool * Group :=
  if negb (click_to_reveal g) || negb (button e =? 1) then (false, g)
  else if negb (Z.land (Gtk.get_state_flags (box g)) Gtk.STATE_FLAG_PRELIGHT =? 0)
       then (true, hide_group g)
       else (true, show_group g).

Definition update (g : Group) : Group := g.

(** [getBox] answers which of the two boxes takes the next widget. *)
Inductive WhichBox : Type := TheBox | TheRevealerBox.

Definition getBox (g : Group) : WhichBox :=
  if is_drawer g then (if is_first_widget g then TheBox else TheRevealerBox)
  else TheBox.

(** [addWidget] packs the widget and may add a class to the widget's own
    style context; that effect on the caller's widget is the second
    component of the result. *)
Definition addWidget (widget : Gtk.Widget) (g : Group) : Group * option string :=
  let g1 :=
    match getBox g with
    | TheBox =>
        set_box (Gtk.pack_start (Gtk.ChildWidget widget) false false (box g)) g
    | TheRevealerBox =>
        set_revealer_box
          (Gtk.pack_start (Gtk.ChildWidget widget) false false (revealer_box g)) g
    end in
  let added :=
    if is_drawer g1 && negb (is_first_widget g1)
    then Some (add_class_to_drawer_children g1) else None in
  (set_is_first_widget false g1, added).

(** The lambda assigned to [thread_]: one iteration of the timer loop. *)
Definition timer_task (g : Group) : Task Group :=
  let g1 := if free_ g && reset_ g then set_reset false (show_group g) else g in
  SleepFor (interval_ g1) g1 (fun g2 =>
    Return (if free_ g2 && negb (reset_ g2) then hide_group g2 else g2)).

(** [int] arithmetic, wrap-around written out. *)
Definition wrap_int (z : Z) : Z := (z + 2 ^ 31) mod 2 ^ 32 - 2 ^ 31.

Section Controller.

(** What [group.cpp] takes from elsewhere: the platform's first real-time
    signal number, and the values [group.hpp] gives the members that the
    constructor does not always assign. *)
Variable SIGRTMIN : Z.
Variables free_init reset_init : bool.
Variable interval_init : Duration.

(** Modelled from the spec: the member initialisers of [group.hpp], which is
    not under [src/]: no child added yet, not a drawer, click-to-reveal off
    and a revealer that shows nothing (the reveal state starts Hidden). *)
Definition Group_init (name : string) (config : Json.Value) (vertical : bool) : Group :=
  let o := if vertical then Gtk.ORIENTATION_VERTICAL else Gtk.ORIENTATION_HORIZONTAL in
  mkGroup name config false (Gtk.new_Box o 0) (Gtk.new_Box o 0) Gtk.new_Revealer
          true false false "" free_init reset_init interval_init new_SleeperThread.

Definition orient_box (orientation : string) (vertical : bool) (b : Gtk.Box)
  : result Gtk.Box :=
  if String.eqb orientation "inherit" then Ok b
  else if String.eqb orientation "orthogonal" then
    Ok (Gtk.set_orientation
          (if vertical then Gtk.ORIENTATION_HORIZONTAL else Gtk.ORIENTATION_VERTICAL) b)
  else if String.eqb orientation "vertical" then
    Ok (Gtk.set_orientation Gtk.ORIENTATION_VERTICAL b)
  else if String.eqb orientation "horizontal" then
    Ok (Gtk.set_orientation Gtk.ORIENTATION_HORIZONTAL b)
  else Throw (RuntimeError ("Invalid orientation value: " +:+ orientation)).

(** The drawer branch of the constructor, lines 53-95. *)
Definition setup_drawer (vertical : bool) (g : Group) : result Group :=
  drawer_config ← Json.index (config_ g) "drawer";
  cfg_duration ← Json.index drawer_config "transition-duration";
  transition_duration ←
    (if Json.isInt cfg_duration then Json.asInt cfg_duration else Ok 500);
  cfg_class ← Json.index drawer_config "children-class";
  children_class ←
    (if Json.isString cfg_class then Json.asString cfg_class else Ok "drawer-child");
  cfg_ltr ← Json.index drawer_config "transition-left-to-right";
  left_to_right ←
    (if Json.isBool cfg_ltr then Json.asBool cfg_ltr else Ok true);
  cfg_click ← Json.index drawer_config "click-to-reveal";
  click ← Json.asBool cfg_click;
  let transition_type := getPreferredTransitionType vertical in
  let r := Gtk.revealer_add
             (Gtk.revealer_add_class "drawer"
                (Gtk.set_reveal_child false
                   (Gtk.set_transition_duration transition_duration
                      (Gtk.set_transition_type transition_type (revealer g))))) in
  let b := if left_to_right : bool
           then Gtk.pack_end Gtk.ChildRevealer true true (box g)
           else Gtk.pack_start Gtk.ChildRevealer true true (box g) in
  let g1 := mkGroup (name_ g) (config_ g) (event_box_ g) b (revealer_box g) r
                    (is_first_widget g) true click children_class
                    (free_ g) (reset_ g) (interval_ g) (thread_ g) in
  if negb click then
    cfg_interval ← Json.index (config_ g) "interval";
    interval ←
      (if Json.equals_string cfg_interval "once" || negb (Json.isUInt cfg_interval)
       then Ok seconds_max
       else n ← Json.asUInt cfg_interval; Ok (seconds n));
    Ok (mkGroup (name_ g1) (config_ g1) (event_box_ g1) (box g1) (revealer_box g1)
                (revealer g1) (is_first_widget g1) (is_drawer g1)
                (click_to_reveal g1) (add_class_to_drawer_children g1)
                (free_ g1) (reset_ g1) interval (assign_task (thread_ g1)))
  else Ok g1.

(** [Group::Group (name, id, config, vertical)]. *)
Definition Group_Group (name id : string) (config : Json.Value) (vertical : bool)
  : result Group :=
  let g0 := Group_init name config vertical in
  let b1 := Gtk.set_name (name_ g0) (box g0) in
  let b2 := if negb (String.eqb id "") then Gtk.box_add_class id b1 else b1 in
  cfg_orientation ← Json.index (config_ g0) "orientation";
  orientation ←
    (if Json.empty cfg_orientation then Ok "orthogonal"
     else Json.asString cfg_orientation);
  b3 ← orient_box orientation vertical b2;
  let g1 := set_box b3 g0 in
  cfg_drawer ← Json.index (config_ g1) "drawer";
  g2 ← (if Json.isObject cfg_drawer then setup_drawer vertical g1 else Ok g1);
  Ok (mkGroup (name_ g2) (config_ g2) true (box g2) (revealer_box g2) (revealer g2)
              (is_first_widget g2) (is_drawer g2) (click_to_reveal g2)
              (add_class_to_drawer_children g2) (free_ g2) (reset_ g2)
              (interval_ g2) (thread_ g2)).

(** [Group::refresh (sig)]. *)
Definition refresh (sig : Z) (g : Group) : result Group :=
  cfg_signal ← Json.index (config_ g) "signal";
  signal ← Json.asInt cfg_signal;
  if sig =? wrap_int (SIGRTMIN + signal) then
    let ev := mkButton 1 in
    let '(handled, g1) := handleToggle ev g in
    if negb handled then
      if free_ g1 then
        Ok (set_thread (wake_up (thread_ g1)) (set_reset true g1))
      else Ok g1
    else Ok g1
  else Ok g.

(** ** Observations *)

Inductive RevealState : Type := Hidden | Revealed.

(** The reveal state is what the revealer was last told to show. *)
Definition reveal_state (g : Group) : RevealState :=
  if Gtk.reveal_child (revealer g) then Revealed else Hidden.

(** The "active" marker is the prelight flag of [box], read the way
    [handleToggle] reads it. *)
Definition visual_marker (g : Group) : bool :=
  negb (Z.land (Gtk.get_state_flags (box g)) Gtk.STATE_FLAG_PRELIGHT =? 0).

Definition primarySequence (g : Group) : list Gtk.Widget :=
  Gtk.widgets_of (Gtk.children (box g)).

Definition overlaySequence (g : Group) : list Gtk.Widget :=
  Gtk.widgets_of (Gtk.children (revealer_box g)).

(** The marker and the reveal state agree. *)
Definition consistent (g : Group) : Prop :=
  visual_marker g = Gtk.reveal_child (revealer g).

(** A run of [addWidget] calls, with the class each widget was given. *)
Fixpoint addWidgets (ws : list Gtk.Widget) (g : Group)
  : Group * list (Gtk.Widget * option string) :=
  match ws with
  | [] => (g, [])
  | w :: rest =>
      let '(g1, cls) := addWidget w g in
      let '(g2, log) := addWidgets rest g1 in
      (g2, (w, cls) :: log)
  end.

(** The object after a call that may throw: an exception leaves it as it
    was. *)
Definition after (g : Group) (m : result Group) : Group :=
  match m with Ok g1 => g1 | Throw _ => g end.

(** The configured signal id of [refresh], when the configuration has one
    that converts to [int]. *)
Definition signal_id (g : Group) : result Z :=
  cfg_signal ← Json.index (config_ g) "signal";
  signal ← Json.asInt cfg_signal;
  Ok (wrap_int (SIGRTMIN + signal)).

Definition matches_signal (sig : Z) (g : Group) : Prop :=
  signal_id g = Ok sig.

(** ** The object and its timer thread, interleaved

    The main loop delivers events to the handlers; the timer thread runs its
    task up to the sleep and later resumes it.  [parked] holds the rest of
    the task while the thread sleeps. *)

Record World : Type := mkWorld {
  group : Group;
  parked : option (Group -> Task Group)
}.

Inductive Event : Type :=
| MouseEnter (e : GdkEventCrossing)
| MouseLeave (e : GdkEventCrossing)
| Toggle (e : GdkEventButton)
| Refresh (sig : Z)
| Update
| AddWidget (w : Gtk.Widget)
| TimerRun
| TimerWake.

Definition settle (t : Task Group) : World :=
  match t with
  | Return g => mkWorld g None
  | SleepFor _ g k => mkWorld g (Some k)
  end.

Definition step (ev : Event) (w : World) : World :=
  let g := group w in
  match ev with
  | MouseEnter e => mkWorld (snd (handleMouseEnter e g)) (parked w)
  | MouseLeave e => mkWorld (snd (handleMouseLeave e g)) (parked w)
  | Toggle e => mkWorld (snd (handleToggle e g)) (parked w)
  | Refresh sig => mkWorld (after g (refresh sig g)) (parked w)
  | Update => mkWorld (update g) (parked w)
  | AddWidget x => mkWorld (fst (addWidget x g)) (parked w)
  | TimerRun =>
      match parked w with
      | None => if task_assigned (thread_ g) then settle (timer_task g) else w
      | Some _ => w
      end
  | TimerWake =>
      match parked w with
      | None => w
      | Some k => settle (k g)
      end
  end.

Definition run (evs : list Event) (w : World) : World :=
  fold_left (fun w ev => step ev w) evs w.

Definition boot (g : Group) : World := mkWorld g None.

(** The states an object can be in: constructed, then any events. *)
Definition Reachable (g : Group) : Prop :=
  exists name id config vertical g0 evs,
    Group_Group name id config vertical = Ok g0 /\
    group (run evs (boot g0)) = g.

End Controller.

(** ** Notions the properties are stated with *)

Definition toggled (s : RevealState) : RevealState :=
  match s with Hidden => Revealed | Revealed => Hidden end.

(** The four orientation names the constructor accepts. *)
Definition orientation_names : list string :=
  ["inherit"; "orthogonal"; "vertical"; "horizontal"].

(** Whether the drawer's click-to-reveal value, read through [asBool], has a
    boolean reading (null, a boolean or a number). *)
Definition click_convertible (config : Json.Value) : bool :=
  match Json.index config "drawer" with
  | Ok (Json.objectValue members) =>
      succeeds (Json.asBool (Json.find_member "click-to-reveal" members))
  | _ => true
  end.

(** While the timer thread sleeps, the rest of its task either leaves the
    object alone or hides the group. *)
Definition parked_ok (w : World) : Prop :=
  forall k, parked w = Some k ->
    forall g, k g = Return g \/ k g = Return (hide_group g).

(** A group that is not a drawer: hover mode, no timer task, nothing in the
    revealer and the revealer not packed into [box]. *)
Definition plain (g : Group) : Prop :=
  is_drawer g = false /\
  click_to_reveal g = false /\
  task_assigned (thread_ g) = false /\
  Gtk.has_child (revealer g) = false /\
  overlaySequence g = [] /\
  Forall (fun p => Gtk.child p <> Gtk.ChildRevealer) (Gtk.children (box g)).

(** A result that is not the constructor's own configuration error (the
    [std::runtime_error]). *)
Definition no_config_error {A} (m : result A) : Prop :=
  match m with
  | Throw (RuntimeError _) => False
  | _ => True
  end.

(** What the constructor fixes once and for all. *)
Definition same_setup (g0 g : Group) : Prop :=
  config_ g = config_ g0 /\
  is_drawer g = is_drawer g0 /\
  click_to_reveal g = click_to_reveal g0 /\
  add_class_to_drawer_children g = add_class_to_drawer_children g0 /\
  interval_ g = interval_ g0 /\
  task_assigned (thread_ g) = task_assigned (thread_ g0).

(** ** Sample configurations and objects *)

Module Sample.
Import Json.

Definition SIGRTMIN : Z := 34.

(** No configuration at all: a plain group. *)
Definition plain_config : Value := nullValue.

(** [{"drawer": {}, "interval": 2, "signal": 8}] *)
Definition hover_config : Value :=
  objectValue [("drawer", objectValue []); ("interval", intValue 2);
               ("signal", intValue 8)].

(** [{"drawer": {}, "interval": "once"}] *)
Definition once_config : Value :=
  objectValue [("drawer", objectValue []); ("interval", stringValue "once")].

(** [{"drawer": {"click-to-reveal": true}, "signal": 8}] *)
Definition click_config : Value :=
  objectValue [("drawer", objectValue [("click-to-reveal", booleanValue true)]);
               ("signal", intValue 8)].

(** [{"drawer": {"click-to-reveal": "yes"}}] *)
Definition bad_click_config : Value :=
  objectValue [("drawer", objectValue [("click-to-reveal", stringValue "yes")])].

(** [{"drawer": {"click-to-reveal": 1}}] *)
Definition numeric_click_config : Value :=
  objectValue [("drawer", objectValue [("click-to-reveal", intValue 1)])].


(** [{"orientation": []}] *)
Definition empty_array_orientation : Value :=
  objectValue [("orientation", arrayValue [])].

(** [{"orientation": "diagonal"}] *)
Definition diagonal_orientation : Value :=
  objectValue [("orientation", stringValue "diagonal")].

(** [{"orientation": "vertical"}] *)
Definition vertical_orientation : Value :=
  objectValue [("orientation", stringValue "vertical")].

Definition make (config : Value) : result Group :=
  Group_Group true false seconds_max "group/sample" "" config false.

Definition built (config : Value) : Group :=
  match make config with
  | Ok g => g
  | Throw _ => Group_init true false seconds_max "group/sample" config false
  end.

Definition reachable (g : Group) : Prop :=
  Reachable SIGRTMIN true false seconds_max g.

Definition pointer_enter : GdkEventCrossing := mkCrossing Gtk.NOTIFY_NONLINEAR.
Definition pointer_leave : GdkEventCrossing := mkCrossing Gtk.NOTIFY_NONLINEAR.
Definition pointer_into_child : GdkEventCrossing := mkCrossing Gtk.NOTIFY_INFERIOR.
Definition primary_click : GdkEventButton := mkButton 1.

End Sample.

(** ** Notions for the further properties *)

(** JsonCpp keeps an [intValue] in an [Int64] and a [uintValue] in a
    [UInt64]. *)
Definition stored_in_range (v : Json.Value) : Prop :=
  match v with
  | Json.intValue n => - 2 ^ 63 <= n < 2 ^ 63
  | Json.uintValue n => 0 <= n < 2 ^ 64
  | _ => True
  end.

(** The constructor's last statement, [event_box_.add(box)]. *)
Definition in_event_box (g : Group) : Group :=
  mkGroup (name_ g) (config_ g) true (box g) (revealer_box g) (revealer g)
          (is_first_widget g) (is_drawer g) (click_to_reveal g)
          (add_class_to_drawer_children g) (free_ g) (reset_ g)
          (interval_ g) (thread_ g).

(** The box as the constructor has it before it looks at the orientation. *)
Definition named_box (name id : string) (vertical : bool) : Gtk.Box :=
  let b := Gtk.set_name name
             (Gtk.new_Box (if vertical then Gtk.ORIENTATION_VERTICAL
                           else Gtk.ORIENTATION_HORIZONTAL) 0) in
  if negb (String.eqb id "") then Gtk.box_add_class id b else b.

(** The orientation name the constructor goes by. *)
Definition orientation_reading (config : Json.Value) : result string :=
  cfg_orientation ← Json.index config "orientation";
  if Json.empty cfg_orientation then Ok "orthogonal"
  else Json.asString cfg_orientation.

Definition passed_orientation (vertical : bool) : Gtk.Orientation :=
  if vertical then Gtk.ORIENTATION_VERTICAL else Gtk.ORIENTATION_HORIZONTAL.

Definition crossed_orientation (vertical : bool) : Gtk.Orientation :=
  if vertical then Gtk.ORIENTATION_HORIZONTAL else Gtk.ORIENTATION_VERTICAL.

(** The two halves of the timer task, before and after its sleep. *)
Definition timer_before (g : Group) : Group :=
  if free_ g && reset_ g then set_reset false (show_group g) else g.

Definition timer_after (g : Group) : Group :=
  if free_ g && negb (reset_ g) then hide_group g else g.

(** While the thread sleeps, what is parked is the second half of the task. *)
Definition parked_timer (w : World) : Prop :=
  forall k, parked w = Some k -> forall g, k g = Return (timer_after g).

(** The widgets of the [addWidget] calls of a run, in call order. *)
Definition added_widgets (evs : list Event) : list Gtk.Widget :=
  flat_map (fun ev => match ev with AddWidget w => [w] | _ => [] end) evs.

(** How [addWidget] packs a widget, and how the constructor packs the
    revealer. *)
Definition widget_packing (w : Gtk.Widget) : Gtk.Packing :=
  Gtk.mkPacking (Gtk.ChildWidget w) false false Gtk.PACK_START.

Definition revealer_packing (left_to_right : bool) : Gtk.Packing :=
  Gtk.mkPacking Gtk.ChildRevealer true true
                (if left_to_right then Gtk.PACK_END else Gtk.PACK_START).

(** A pointer-leave that does not go into a descendant. *)
Definition is_real_leave (ev : Event) : bool :=
  match ev with
  | MouseLeave e => negb (Gtk.notify_eqb (detail e) Gtk.NOTIFY_INFERIOR)
  | _ => false
  end.

Definition is_add (ev : Event) : bool :=
  match ev with AddWidget _ => true | _ => false end.

(** Hover mode with the pointer inside: shown and marked. *)
Definition hovered (g : Group) : Prop :=
  click_to_reveal g = false /\
  free_ g = false /\
  reveal_state g = Revealed /\
  visual_marker g = true.

Definition stays_inside (ev : Event) : bool := negb (is_real_leave ev).

(** Click mode as constructed: nothing of the hover and timer state was
    touched. *)
Definition click_only (f r : bool) (i : Duration) (w : World) : Prop :=
  click_to_reveal (group w) = true /\
  free_ (group w) = f /\
  reset_ (group w) = r /\
  interval_ (group w) = i /\
  thread_ (group w) = new_SleeperThread /\
  parked w = None.

(** The widget settings the constructor makes. *)
Definition same_look (g0 g : Group) : Prop :=
  name_ g = name_ g0 /\
  event_box_ g = event_box_ g0 /\
  Gtk.orientation (box g) = Gtk.orientation (box g0) /\
  Gtk.name (box g) = Gtk.name (box g0) /\
  Gtk.style_classes (box g) = Gtk.style_classes (box g0) /\
  Gtk.orientation (revealer_box g) = Gtk.orientation (revealer_box g0) /\
  Gtk.transition_type (revealer g) = Gtk.transition_type (revealer g0) /\
  Gtk.transition_duration (revealer g) = Gtk.transition_duration (revealer g0) /\
  Gtk.revealer_classes (revealer g) = Gtk.revealer_classes (revealer g0) /\
  Gtk.has_child (revealer g) = Gtk.has_child (revealer g0).

Module MoreSamples.
Import Json.

(** [{"drawer": {"transition-duration": -1, "transition-left-to-right": false}}] *)
Definition negative_duration_config : Value :=
  objectValue
    [("drawer",
      objectValue [("transition-duration", intValue (-1));
                   ("transition-left-to-right", booleanValue false)])].


(** A widget, a pointer passing over, a trigger, two more widgets. *)
Definition busy_run : list Event :=
  [AddWidget 1%nat; MouseEnter Sample.pointer_enter; TimerRun;
   AddWidget 2%nat; MouseLeave Sample.pointer_leave; Refresh 42;
   AddWidget 3%nat].

(** What may happen while the pointer stays inside. *)
Definition inside_run : list Event :=
  [TimerRun; Refresh 42; TimerWake; Toggle Sample.primary_click;
   MouseLeave Sample.pointer_into_child; AddWidget 1%nat; TimerRun; TimerWake].

End MoreSamples.

(** * Properties *)

(** ** Bit facts about the prelight flag *)

Lemma prelight_testbit (f : Z) :
  negb (Z.land f Gtk.STATE_FLAG_PRELIGHT =? 0) = Z.testbit f 1.
Proof.
  change Gtk.STATE_FLAG_PRELIGHT with (2 ^ 1).
  destruct (Z.testbit f 1) eqn:Hb.
  - apply negb_true_iff, Z.eqb_neq. intros H0.
    assert (Hbit : Z.testbit (Z.land f (2 ^ 1)) 1 = true).
    { rewrite Z.land_spec, Hb, Z.pow2_bits_true by lia. reflexivity. }
    rewrite H0, Z.bits_0 in Hbit. discriminate.
  - apply negb_false_iff, Z.eqb_eq, Z.bits_inj'. intros n Hn.
    rewrite Z.land_spec, Z.bits_0, Z.pow2_bits_eqb by lia.
    destruct (Z.eqb_spec 1 n) as [<-|_].
    + rewrite Hb. reflexivity.
    + apply andb_false_r.
Qed.

Lemma set_prelight_testbit (f : Z) :
  Z.testbit
    (Z.land (Z.lor f (Z.land Gtk.STATE_FLAG_PRELIGHT Gtk.ALLOWED_FLAGS))
            (Z.lnot (Z.land (Z.lnot Gtk.STATE_FLAG_PRELIGHT) Gtk.ALLOWED_FLAGS)))
    1 = true.
Proof.
  rewrite Z.land_spec, Z.lor_spec, Z.lnot_spec, !Z.land_spec, Z.lnot_spec by lia.
  replace (Z.testbit Gtk.STATE_FLAG_PRELIGHT 1) with true by reflexivity.
  replace (Z.testbit Gtk.ALLOWED_FLAGS 1) with true by reflexivity.
  destruct (Z.testbit f 1); reflexivity.
Qed.

Lemma unset_prelight_testbit (f : Z) :
  Z.testbit (Z.land f (Z.lnot Gtk.STATE_FLAG_PRELIGHT)) 1 = false.
Proof.
  rewrite Z.land_spec, Z.lnot_spec by lia.
  replace (Z.testbit Gtk.STATE_FLAG_PRELIGHT 1) with true by reflexivity.
  apply andb_false_r.
Qed.

Lemma unset_prelight_absent (f : Z) :
  Z.testbit f 1 = false -> Z.land f (Z.lnot Gtk.STATE_FLAG_PRELIGHT) = f.
Proof.
  intros Hb. apply Z.bits_inj'. intros n Hn.
  rewrite Z.land_spec, Z.lnot_spec by lia.
  change Gtk.STATE_FLAG_PRELIGHT with (2 ^ 1).
  rewrite Z.pow2_bits_eqb by lia.
  destruct (Z.eqb_spec 1 n) as [<-|_].
  - rewrite Hb. reflexivity.
  - apply andb_true_r.
Qed.

(** ** What showing and hiding do *)

Lemma show_group_marker (g : Group) : visual_marker (show_group g) = true.
Proof.
  unfold visual_marker. rewrite prelight_testbit. apply set_prelight_testbit.
Qed.

Lemma show_group_state (g : Group) : reveal_state (show_group g) = Revealed.
Proof. reflexivity. Qed.

Lemma hide_group_marker (g : Group) : visual_marker (hide_group g) = false.
Proof.
  unfold visual_marker. rewrite prelight_testbit. apply unset_prelight_testbit.
Qed.

Lemma hide_group_state (g : Group) : reveal_state (hide_group g) = Hidden.
Proof. reflexivity. Qed.

Lemma show_group_consistent (g : Group) : consistent (show_group g).
Proof. unfold consistent. rewrite show_group_marker. reflexivity. Qed.

Lemma hide_group_consistent (g : Group) : consistent (hide_group g).
Proof. unfold consistent. rewrite hide_group_marker. reflexivity. Qed.

Lemma hide_group_hidden (g : Group) :
  visual_marker g = false -> Gtk.reveal_child (revealer g) = false ->
  hide_group g = g.
Proof.
  unfold visual_marker. rewrite prelight_testbit. intros Hm Hr.
  destruct g as [n c eb b rb r fw dr cl ac fr rs iv th].
  destruct b as [o sp nm sc sf ch], r as [tt td rc rcl hc].
  cbn in *. unfold hide_group, set_box, set_revealer, Gtk.unset_state_flags,
    Gtk.set_reveal_child. cbn.
  rewrite (unset_prelight_absent sf Hm). subst rc. reflexivity.
Qed.

Lemma hide_group_twice (g : Group) : hide_group (hide_group g) = hide_group g.
Proof.
  apply hide_group_hidden; [apply hide_group_marker | reflexivity].
Qed.

(** ** Exceptions and binds *)

Lemma bind_Ok {A B} (m : result A) (f : A -> result B) (b : B) :
  m ≫= f = Ok b -> exists a, m = Ok a /\ f a = Ok b.
Proof. destruct m as [a|e]; [eauto | discriminate]. Qed.

Lemma bind_Throw {A B} (m : result A) (f : A -> result B) (e : exn) :
  m = Throw e -> m ≫= f = Throw e.
Proof. intros ->. reflexivity. Qed.

Ltac bind_inv H :=
  let a := fresh "a" in
  let Ha := fresh "Ha" in
  apply bind_Ok in H as (a & Ha & H).

Tactic Notation "bind_named" hyp(H) "as" ident(x) ident(Hx) :=
  apply bind_Ok in H as (x & Hx & H).

Section Properties.

Variable SIGRTMIN : Z.
Variables free_init reset_init : bool.
Variable interval_init : Duration.

Local Abbreviation construct := (Group_Group free_init reset_init interval_init).
Local Abbreviation refresh' := (refresh SIGRTMIN).
Local Abbreviation step' := (step SIGRTMIN).
Local Abbreviation run' := (run SIGRTMIN).
Local Abbreviation Reachable' :=
  (Reachable SIGRTMIN free_init reset_init interval_init).

(** ** Invariants of the interleaved runs *)

Section Invariant.

Variable P : Group -> Prop.
Hypothesis P_show : forall g, P g -> P (show_group g).
Hypothesis P_hide : forall g, P g -> P (hide_group g).
Hypothesis P_free : forall v g, P g -> P (set_free v g).
Hypothesis P_reset : forall v g, P g -> P (set_reset v g).
Hypothesis P_wake : forall g, P g -> P (set_thread (wake_up (thread_ g)) g).
Hypothesis P_add : forall x g, P g -> P (fst (addWidget x g)).

Lemma handleMouseEnter_keeps e g : P g -> P (snd (handleMouseEnter e g)).
Proof. unfold handleMouseEnter. destruct (click_to_reveal g); cbn; auto. Qed.

Lemma handleMouseLeave_keeps e g : P g -> P (snd (handleMouseLeave e g)).
Proof.
  unfold handleMouseLeave.
  destruct (negb (click_to_reveal g) && _); cbn; auto.
Qed.

Lemma handleToggle_keeps e g : P g -> P (snd (handleToggle e g)).
Proof.
  unfold handleToggle.
  destruct (negb (click_to_reveal g) || _); cbn; [auto|].
  destruct (negb _); cbn; auto.
Qed.

Lemma refresh_keeps sig g : P g -> P (after g (refresh' sig g)).
Proof.
  intros HP. unfold refresh.
  destruct (Json.index (config_ g) "signal") as [v|e]; cbn; [|exact HP].
  destruct (Json.asInt v) as [n|e]; cbn; [|exact HP].
  destruct (sig =? _); cbn; [|exact HP].
  pose proof (handleToggle_keeps (mkButton 1) g HP) as HT.
  destruct (handleToggle (mkButton 1) g) as [handled g1]; cbn in HT |- *.
  destruct handled; cbn; [exact HT|].
  destruct (free_ g1); cbn; [|exact HT].
  apply (P_wake (set_reset true g1)), P_reset, HT.
Qed.

Lemma step_keeps ev w :
  P (group w) -> parked_ok w ->
  P (group (step' ev w)) /\ parked_ok (step' ev w).
Proof.
  intros HP Hk. destruct ev; cbn [step]; try (split; [cbn|exact Hk]).
  - apply handleMouseEnter_keeps, HP.
  - apply handleMouseLeave_keeps, HP.
  - apply handleToggle_keeps, HP.
  - apply refresh_keeps, HP.
  - exact HP.
  - apply P_add, HP.
  - destruct (parked w) eqn:Hp; [split; assumption|].
    destruct (task_assigned (thread_ (group w))); [|split; assumption].
    unfold timer_task. cbn. split.
    + destruct (free_ (group w) && reset_ (group w)); auto.
    + intros k [= <-] g. destruct (free_ g && negb (reset_ g)); auto.
  - destruct (parked w) as [k|] eqn:Hp; [|split; assumption].
    destruct (Hk k Hp (group w)) as [-> | ->]; cbn.
    + split; [exact HP | intros k' [=]].
    + split; [apply P_hide, HP | intros k' [=]].
Qed.

Lemma run_keeps evs : forall w,
  P (group w) -> parked_ok w ->
  P (group (run' evs w)) /\ parked_ok (run' evs w).
Proof.
  induction evs as [|ev evs IH]; intros w HP Hk; cbn; [auto|].
  destruct (step_keeps ev w HP Hk) as [HP' Hk']. apply IH; assumption.
Qed.

End Invariant.

Lemma boot_parked_ok g : parked_ok (boot g).
Proof. intros k [=]. Qed.

(** ** What the constructor establishes *)

Lemma set_orientation_keeps o b :
  Gtk.state_flags (Gtk.set_orientation o b) = Gtk.state_flags b /\
  Gtk.children (Gtk.set_orientation o b) = Gtk.children b /\
  Gtk.name (Gtk.set_orientation o b) = Gtk.name b.
Proof.
  unfold Gtk.set_orientation.
  destruct (Gtk.orientation_eqb (Gtk.orientation b) o); repeat split; reflexivity.
Qed.

Lemma set_orientation_orientation o b :
  Gtk.orientation (Gtk.set_orientation o b) = o.
Proof.
  unfold Gtk.set_orientation.
  destruct (Gtk.orientation b) eqn:Hb, o; cbn; try reflexivity; exact Hb.
Qed.

Lemma orient_box_Ok s v b b' :
  orient_box s v b = Ok b' ->
  s ∈ orientation_names /\
  Gtk.state_flags b' = Gtk.state_flags b /\
  Gtk.children b' = Gtk.children b.
Proof.
  unfold orient_box, orientation_names.
  destruct (String.eqb_spec s "inherit") as [->|_];
    [intros [= <-]; repeat split; repeat constructor|].
  destruct (String.eqb_spec s "orthogonal") as [->|_];
    [intros [= <-]; split; [repeat constructor|];
     split; apply set_orientation_keeps|].
  destruct (String.eqb_spec s "vertical") as [->|_];
    [intros [= <-]; split; [repeat constructor|];
     split; apply set_orientation_keeps|].
  destruct (String.eqb_spec s "horizontal") as [->|_];
    [intros [= <-]; split; [repeat constructor|];
     split; apply set_orientation_keeps|].
  discriminate.
Qed.

Lemma orient_box_valid s v b :
  s ∈ orientation_names -> exists b', orient_box s v b = Ok b'.
Proof.
  unfold orientation_names. rewrite !elem_of_cons, elem_of_nil.
  intros [->|[->|[->|[->|[]]]]]; cbn; eauto.
Qed.

Lemma orient_box_invalid s v b :
  s ∉ orientation_names ->
  orient_box s v b = Throw (RuntimeError ("Invalid orientation value: " +:+ s)).
Proof.
  unfold orientation_names. rewrite !not_elem_of_cons. intros (H1 & H2 & H3 & H4 & _).
  unfold orient_box.
  destruct (String.eqb_spec s "inherit"); [congruence|].
  destruct (String.eqb_spec s "orthogonal"); [congruence|].
  destruct (String.eqb_spec s "vertical"); [congruence|].
  destruct (String.eqb_spec s "horizontal"); [congruence|].
  reflexivity.
Qed.

Lemma widgets_of_app l1 l2 :
  Gtk.widgets_of (l1 ++ l2) = (Gtk.widgets_of l1 ++ Gtk.widgets_of l2)%list.
Proof.
  induction l1 as [|p l1 IH]; cbn; [reflexivity|].
  destruct (Gtk.child p); cbn; congruence.
Qed.

Lemma setup_drawer_Ok v g g' :
  setup_drawer v g = Ok g' ->
  is_drawer g' = true /\
  config_ g' = config_ g /\
  Gtk.state_flags (box g') = Gtk.state_flags (box g) /\
  Gtk.reveal_child (revealer g') = false /\
  is_first_widget g' = is_first_widget g /\
  primarySequence g' = primarySequence g /\
  revealer_box g' = revealer_box g /\
  task_assigned (thread_ g') =
    (if click_to_reveal g' then task_assigned (thread_ g) else true).
Proof.
  unfold setup_drawer. intros H.
  do 9 bind_inv H.
  assert (Hseq : forall ltr : bool,
    Gtk.widgets_of (Gtk.children
      (if ltr then Gtk.pack_end Gtk.ChildRevealer true true (box g)
       else Gtk.pack_start Gtk.ChildRevealer true true (box g)))
    = Gtk.widgets_of (Gtk.children (box g))).
  { intros []; cbn; rewrite widgets_of_app; cbn; apply app_nil_r. }
  destruct a7 as [|]; cbn in H.
  - injection H as <-. cbn. unfold primarySequence. cbn.
    rewrite Hseq. destruct a5; repeat split; reflexivity.
  - do 2 bind_inv H. injection H as <-. cbn. unfold primarySequence. cbn.
    rewrite Hseq. destruct a5; repeat split; reflexivity.
Qed.

Lemma construct_Ok name id config vertical g :
  construct name id config vertical = Ok g ->
  config_ g = config /\
  Gtk.state_flags (box g) = 0 /\
  Gtk.reveal_child (revealer g) = false /\
  is_first_widget g = true /\
  primarySequence g = [] /\
  overlaySequence g = [] /\
  task_assigned (thread_ g) = is_drawer g && negb (click_to_reveal g) /\
  (is_drawer g = false -> plain g).
Proof.
  unfold Group_Group. intros H.
  do 5 bind_inv H. injection H as <-. cbn.
  apply orient_box_Ok in Ha1 as (_ & Hflags & Hchildren).
  assert (Hb0 : Gtk.state_flags a1 = 0 /\ Gtk.children a1 = []).
  { rewrite Hflags, Hchildren. destruct (negb _); split; reflexivity. }
  destruct Hb0 as [Hf0 Hc0].
  destruct (Json.isObject a2).
  - apply setup_drawer_Ok in Ha3
      as (Hd & Hcfg & Hsf & Hrc & Hfirst & Hprim & Hrb & Hth).
    cbn in Hcfg, Hsf, Hfirst, Hrb, Hth.
    split; [exact Hcfg|]. split; [rewrite Hsf; exact Hf0|].
    split; [exact Hrc|]. split; [exact Hfirst|].
    split; [unfold primarySequence in Hprim |- *; cbn in Hprim |- *;
            rewrite Hprim, Hc0; reflexivity|].
    split; [unfold overlaySequence; cbn; rewrite Hrb; reflexivity|].
    split; [rewrite Hth, Hd; destruct (click_to_reveal a3); reflexivity|].
    rewrite Hd; discriminate.
  - injection Ha3 as <-. unfold primarySequence, overlaySequence, plain. cbn.
    rewrite Hc0. repeat split; try assumption; constructor.
Qed.

(** ** Every reachable object is consistent *)

Lemma construct_consistent name id config vertical g :
  construct name id config vertical = Ok g -> consistent g.
Proof.
  intros H. apply construct_Ok in H as (_ & Hf & Hr & _).
  unfold consistent, visual_marker, Gtk.get_state_flags. rewrite Hf, Hr.
  reflexivity.
Qed.

Lemma run_consistent evs w :
  consistent (group w) -> parked_ok w -> consistent (group (run' evs w)).
Proof.
  intros Hc Hk.
  apply (run_keeps consistent); try assumption.
  - intros g _. apply show_group_consistent.
  - intros g _. apply hide_group_consistent.
  - intros v g Hg. exact Hg.
  - intros v g Hg. exact Hg.
  - intros g Hg. exact Hg.
  - intros x g Hg. unfold consistent, visual_marker, addWidget in *.
    destruct (getBox g); exact Hg.
Qed.

Lemma reachable_consistent g : Reachable' g -> consistent g.
Proof.
  intros (name & id & config & vertical & g0 & evs & Hnew & <-).
  apply run_consistent; [|apply boot_parked_ok].
  exact (construct_consistent _ _ _ _ _ Hnew).
Qed.

(** ** A group that is not a drawer stays plain *)



(** ** What the events never change *)

Lemma run_same_setup g0 evs : same_setup g0 (group (run' evs (boot g0))).
Proof.
  apply (run_keeps (same_setup g0)).
  - intros g Hg. exact Hg.
  - intros g Hg. exact Hg.
  - intros v g Hg. exact Hg.
  - intros v g Hg. exact Hg.
  - intros g Hg. exact Hg.
  - intros x g Hg. unfold addWidget, same_setup. destruct (getBox g); exact Hg.
  - repeat split.
  - apply boot_parked_ok.
Qed.

Lemma setup_drawer_interval v g g' :
  setup_drawer v g = Ok g' -> click_to_reveal g' = false ->
  exists cfg_interval,
    Json.index (config_ g) "interval" = Ok cfg_interval /\
    (if Json.equals_string cfg_interval "once" || negb (Json.isUInt cfg_interval)
     then Ok seconds_max
     else n ← Json.asUInt cfg_interval; Ok (seconds n)) = Ok (interval_ g').
Proof.
  unfold setup_drawer. intros H Hclick.
  do 9 bind_inv H.
  destruct a7 as [|]; cbn in H.
  - injection H as <-. discriminate Hclick.
  - do 2 bind_inv H. injection H as <-. cbn. eauto.
Qed.

Lemma construct_interval name id config vertical g :
  construct name id config vertical = Ok g ->
  is_drawer g = true -> click_to_reveal g = false ->
  exists cfg_interval,
    Json.index config "interval" = Ok cfg_interval /\
    (if Json.equals_string cfg_interval "once" || negb (Json.isUInt cfg_interval)
     then Ok seconds_max
     else n ← Json.asUInt cfg_interval; Ok (seconds n)) = Ok (interval_ g).
Proof.
  unfold Group_Group. intros H.
  do 5 bind_inv H. injection H as <-. cbn.
  destruct (Json.isObject a2).
  - intros _ Hclick. exact (setup_drawer_interval _ _ _ Ha3 Hclick).
  - injection Ha3 as <-. discriminate.
Qed.

(** ** The timer task (C1) *)

(** C1: for a drawer-mode group with click-to-reveal off, the timer task
    exists and one iteration of its loop body does, in this order:
    (1) if the pointer is free and a reveal is pending, show the group and
    then clear the pending flag; (2) sleep for the configured interval or
    until woken, whichever comes first, and until woken only when the
    interval is configured as "once"; (3) on the state found after waking,
    if the pointer is free and no reveal is pending, hide the group. *)
Theorem timer_task_steps (g : Group) :
  Reachable' g -> is_drawer g = true -> click_to_reveal g = false ->
  task_assigned (thread_ g) = true /\
  (Json.index (config_ g) "interval" = Ok (Json.stringValue "once") ->
   interval_ g = seconds_max) /\
  (forall n, Json.index (config_ g) "interval" = Ok (Json.intValue n) ->
   0 <= n <= Json.maxUInt -> interval_ g = seconds n) /\
  exists before_sleep resume,
    timer_task g = SleepFor (interval_ g) before_sleep resume /\
    (* step 1 *)
    before_sleep =
      (if free_ g && reset_ g then set_reset false (show_group g) else g) /\
    (free_ g = true -> reset_ g = true ->
     reveal_state before_sleep = Revealed /\ visual_marker before_sleep = true /\
     reset_ before_sleep = false /\ free_ before_sleep = true) /\
    (* step 2 *)
    (forall wake, sleep_for seconds_max wake = wake) /\
    (forall n, sleep_for (seconds n) None = Some n) /\
    (forall n w, sleep_for (seconds n) (Some w) = Some (Z.min n w)) /\
    (* step 3 *)
    (forall woken,
       resume woken =
         Return (if free_ woken && negb (reset_ woken)
                 then hide_group woken else woken)) /\
    (forall woken after_wake, resume woken = Return after_wake ->
       free_ woken = true -> reset_ woken = false ->
       reveal_state after_wake = Hidden /\ visual_marker after_wake = false).
Proof.
  intros (name & id & config & vertical & g0 & evs & Hnew & <-) Hd Hc.
  destruct (run_same_setup g0 evs) as (Hcfg & Hdr & Hcl & _ & Hiv & Hth).
  rewrite Hdr in Hd. rewrite Hcl in Hc. rewrite Hcfg, Hiv, Hth.
  pose proof (construct_Ok _ _ _ _ _ Hnew) as (Hconf & _ & _ & _ & _ & _ & Hta & _).
  destruct (construct_interval _ _ _ _ _ Hnew Hd Hc) as (ci & Hci & Hint).
  rewrite Hconf.
  split; [rewrite Hta, Hd, Hc; reflexivity|].
  split.
  { intros Honce. rewrite Honce in Hci. injection Hci as <-.
    cbn in Hint. congruence. }
  split.
  { intros n Hn Hrange. rewrite Hn in Hci. injection Hci as <-.
    cbn in Hint.
    replace ((0 <=? n) && (n <=? Json.maxUInt)) with true in Hint
      by (symmetry; apply andb_true_iff; split; apply Z.leb_le; lia).
    cbn in Hint. congruence. }
  set (g := group (run' evs (boot g0))).
  exists (if free_ g && reset_ g then set_reset false (show_group g) else g),
         (fun g2 => Return (if free_ g2 && negb (reset_ g2)
                            then hide_group g2 else g2)).
  split.
  { replace (interval_ g0) with (interval_ g) by exact Hiv.
    unfold timer_task. destruct (free_ g && reset_ g); reflexivity. }
  split; [reflexivity|].
  split.
  { intros Hf Hr. rewrite Hf, Hr. cbn. split; [reflexivity|].
    split; [apply show_group_marker|]. split; [reflexivity | exact Hf]. }
  split; [intros wake; reflexivity|].
  split; [intros n; reflexivity|].
  split; [intros n w; reflexivity|].
  split; [intros woken; reflexivity|].
  intros woken after_wake Hres Hf Hr. rewrite Hf, Hr in Hres. cbn in Hres.
  injection Hres as <-.
  split; [reflexivity | apply hide_group_marker].
Qed.

(** ** Hover mode (C2) *)


(** C2: with click-to-reveal off, pointer-enter clears the pointer-free flag
    and shows the group; a pointer-leave that does not go into a descendant
    sets the flag and hides the group; a leave into a descendant changes
    nothing. *)
Theorem hover_enter_leave (g : Group) (e : GdkEventCrossing) :
  click_to_reveal g = false ->
  (snd (handleMouseEnter e g) = show_group (set_free false g) /\
   free_ (snd (handleMouseEnter e g)) = false /\
   reveal_state (snd (handleMouseEnter e g)) = Revealed /\
   visual_marker (snd (handleMouseEnter e g)) = true) /\
  (detail e <> Gtk.NOTIFY_INFERIOR ->
   snd (handleMouseLeave e g) = hide_group (set_free true g) /\
   free_ (snd (handleMouseLeave e g)) = true /\
   reveal_state (snd (handleMouseLeave e g)) = Hidden /\
   visual_marker (snd (handleMouseLeave e g)) = false) /\
  (detail e = Gtk.NOTIFY_INFERIOR -> snd (handleMouseLeave e g) = g).
Proof.
  intros Hc. unfold handleMouseEnter, handleMouseLeave. rewrite Hc. cbn.
  split; [|split].
  - split; [reflexivity|]. split; [reflexivity|]. split; [reflexivity|].
    apply show_group_marker.
  - intros Hd.
    replace (Gtk.notify_eqb (detail e) Gtk.NOTIFY_INFERIOR) with false
      by (destruct (detail e); try reflexivity; contradiction).
    cbn. split; [reflexivity|]. split; [reflexivity|]. split; [reflexivity|].
    apply hide_group_marker.
  - intros ->. reflexivity.
Qed.

(** ** Click-to-reveal mode (C3) *)

Lemma handleToggle_primary (g : Group) (e : GdkEventButton) :
  click_to_reveal g = true -> button e = 1 ->
  handleToggle e g =
    (true, if visual_marker g then hide_group g else show_group g).
Proof.
  intros Hc Hb. unfold handleToggle, visual_marker. rewrite Hc, Hb. cbn.
  destruct (negb _); reflexivity.
Qed.

(** C3: with click-to-reveal on, a click of button 1 toggles the reveal
    state between Hidden and Revealed, a click of another button changes
    nothing, and pointer-enter and pointer-leave change nothing; with
    click-to-reveal off, a click changes nothing. *)
Theorem click_mode_toggle (g : Group) :
  Reachable' g ->
  (click_to_reveal g = true ->
   (forall e, button e = 1 ->
      fst (handleToggle e g) = true /\
      reveal_state (snd (handleToggle e g)) = toggled (reveal_state g) /\
      visual_marker (snd (handleToggle e g)) = negb (visual_marker g)) /\
   (forall e, button e <> 1 -> handleToggle e g = (false, g)) /\
   (forall e, handleMouseEnter e g = (false, g)) /\
   (forall e, handleMouseLeave e g = (false, g))) /\
  (click_to_reveal g = false -> forall e, handleToggle e g = (false, g)).
Proof.
  intros Hreach. pose proof (reachable_consistent g Hreach) as Hcons.
  split.
  - intros Hc. split; [|split; [|split]].
    + intros e Hb. rewrite (handleToggle_primary g e Hc Hb). cbn.
      split; [reflexivity|].
      unfold consistent in Hcons. unfold reveal_state at 2. rewrite <- Hcons.
      destruct (visual_marker g).
      * split; [reflexivity | apply hide_group_marker].
      * split; [reflexivity | apply show_group_marker].
    + intros e Hb. unfold handleToggle. rewrite Hc.
      apply Z.eqb_neq in Hb. rewrite Hb. reflexivity.
    + intros e. unfold handleMouseEnter. rewrite Hc. reflexivity.
    + intros e. unfold handleMouseLeave. rewrite Hc. reflexivity.
  - intros Hc e. unfold handleToggle. rewrite Hc. reflexivity.
Qed.

(** ** The external trigger (C4) *)


(** ** Hiding twice (C9) *)

(** C9: hiding is idempotent: hiding twice is hiding once, and hiding a
    group whose reveal state is Hidden leaves the object, its reveal state
    and its marker as they were. *)
Theorem hide_group_idempotent (g : Group) :
  hide_group (hide_group g) = hide_group g /\
  (Reachable' g -> reveal_state g = Hidden ->
   hide_group g = g /\
   reveal_state (hide_group g) = reveal_state g /\
   visual_marker (hide_group g) = visual_marker g).
Proof.
  split; [apply hide_group_twice|].
  intros Hreach Hhidden.
  assert (Hr : Gtk.reveal_child (revealer g) = false).
  { unfold reveal_state in Hhidden.
    destruct (Gtk.reveal_child (revealer g)); [discriminate | reflexivity]. }
  assert (Hm : visual_marker g = false).
  { rewrite (reachable_consistent g Hreach). exact Hr. }
  rewrite (hide_group_hidden g Hm Hr). repeat split; reflexivity.
Qed.

(** ** The marker follows the reveal state (C10) *)

(** C10: the reveal state and the prelight marker of [box] agree after
    construction and after every operation, so that in every reachable
    object the marker is set exactly when the state is Revealed; and the
    click handler chooses between hiding and showing by reading that
    marker. *)
Theorem marker_tracks_reveal_state :
  (forall g, consistent (show_group g) /\ consistent (hide_group g)) /\
  (forall name id config vertical g,
     construct name id config vertical = Ok g ->
     visual_marker g = false /\ reveal_state g = Hidden) /\
  (forall ev w, consistent (group w) -> parked_ok w ->
     consistent (group (step' ev w)) /\ parked_ok (step' ev w)) /\
  (forall g, Reachable' g ->
     (visual_marker g = true <-> reveal_state g = Revealed)) /\
  (forall g e, click_to_reveal g = true -> button e = 1 ->
     snd (handleToggle e g) =
       (if visual_marker g then hide_group g else show_group g)).
Proof.
  split; [intros g; split;
          [apply show_group_consistent | apply hide_group_consistent]|].
  split.
  { intros name id config vertical g Hnew.
    pose proof (construct_consistent _ _ _ _ _ Hnew) as Hcons.
    apply construct_Ok in Hnew as (_ & _ & Hr & _).
    unfold consistent in Hcons. unfold reveal_state.
    rewrite Hcons, Hr. split; reflexivity. }
  split.
  { intros ev w Hc Hk.
    pose proof (run_keeps consistent) as Hrun.
    apply (fun a b c d e f => Hrun a b c d e f [ev] w); try assumption.
    - intros g _. apply show_group_consistent.
    - intros g _. apply hide_group_consistent.
    - intros v g Hg. exact Hg.
    - intros v g Hg. exact Hg.
    - intros g Hg. exact Hg.
    - intros x g Hg. unfold consistent, visual_marker, addWidget in *.
      destruct (getBox g); exact Hg. }
  split.
  { intros g Hreach. apply reachable_consistent in Hreach.
    unfold consistent in Hreach. unfold reveal_state. rewrite Hreach.
    destruct (Gtk.reveal_child (revealer g)); split; congruence. }
  intros g e Hc Hb. rewrite (handleToggle_primary g e Hc Hb). reflexivity.
Qed.

(** ** Child placement (C7) *)

Lemma addWidgets_cons w ws g :
  addWidgets (w :: ws) g =
    (fst (addWidgets ws (fst (addWidget w g))),
     (w, snd (addWidget w g)) :: snd (addWidgets ws (fst (addWidget w g)))).
Proof.
  cbn [addWidgets]. destruct (addWidget w g) as [g1 cls]. cbn [fst snd].
  destruct (addWidgets ws g1) as [g2 log]. reflexivity.
Qed.

Lemma addWidget_first w g :
  is_drawer g = true -> is_first_widget g = true ->
  addWidget w g =
    (set_is_first_widget false
       (set_box (Gtk.pack_start (Gtk.ChildWidget w) false false (box g)) g),
     None).
Proof. intros Hd Hf. unfold addWidget, getBox. rewrite Hd, Hf. cbn. rewrite Hd, Hf. reflexivity. Qed.

Lemma addWidget_later w g :
  is_drawer g = true -> is_first_widget g = false ->
  addWidget w g =
    (set_is_first_widget false
       (set_revealer_box
          (Gtk.pack_start (Gtk.ChildWidget w) false false (revealer_box g)) g),
     Some (add_class_to_drawer_children g)).
Proof. intros Hd Hf. unfold addWidget, getBox. rewrite Hd, Hf. cbn. rewrite Hd, Hf. reflexivity. Qed.

Lemma addWidget_plain w g :
  is_drawer g = false ->
  addWidget w g =
    (set_is_first_widget false
       (set_box (Gtk.pack_start (Gtk.ChildWidget w) false false (box g)) g),
     None).
Proof. intros Hd. unfold addWidget, getBox. rewrite Hd. cbn. rewrite Hd. reflexivity. Qed.

Lemma addWidgets_later (ws : list Gtk.Widget) : forall g,
  is_drawer g = true -> is_first_widget g = false ->
  primarySequence (fst (addWidgets ws g)) = primarySequence g /\
  overlaySequence (fst (addWidgets ws g)) = (overlaySequence g ++ ws)%list /\
  snd (addWidgets ws g) =
    map (fun x => (x, Some (add_class_to_drawer_children g))) ws.
Proof.
  induction ws as [|w ws IH]; intros g Hd Hf.
  - cbn. rewrite app_nil_r. repeat split; reflexivity.
  - rewrite addWidgets_cons, (addWidget_later w g Hd Hf). cbn [fst snd].
    set (g1 := set_is_first_widget false _).
    destruct (IH g1 Hd eq_refl) as (Hp & Ho & Hl).
    rewrite Hp, Ho, Hl. unfold overlaySequence, g1. cbn.
    rewrite widgets_of_app, <- app_assoc. repeat split; reflexivity.
Qed.

Lemma addWidgets_plain (ws : list Gtk.Widget) : forall g,
  is_drawer g = false ->
  primarySequence (fst (addWidgets ws g)) = (primarySequence g ++ ws)%list /\
  overlaySequence (fst (addWidgets ws g)) = overlaySequence g /\
  snd (addWidgets ws g) = map (fun x => (x, None)) ws.
Proof.
  induction ws as [|w ws IH]; intros g Hd.
  - cbn. rewrite app_nil_r. repeat split; reflexivity.
  - rewrite addWidgets_cons, (addWidget_plain w g Hd). cbn [fst snd].
    set (g1 := set_is_first_widget false _).
    destruct (IH g1 Hd) as (Hp & Ho & Hl).
    rewrite Hp, Ho, Hl. unfold primarySequence, g1. cbn.
    rewrite widgets_of_app, <- app_assoc. repeat split; reflexivity.
Qed.

Lemma addWidgets_first (g : Group) w ws :
  is_drawer g = true -> is_first_widget g = true ->
  primarySequence (fst (addWidgets (w :: ws) g))
    = (primarySequence g ++ [w])%list /\
  overlaySequence (fst (addWidgets (w :: ws) g))
    = (overlaySequence g ++ ws)%list /\
  snd (addWidgets (w :: ws) g)
    = (w, None)
      :: map (fun x => (x, Some (add_class_to_drawer_children g))) ws.
Proof.
  intros Hd Hf.
  rewrite addWidgets_cons, (addWidget_first w g Hd Hf). cbn [fst snd].
  set (g1 := set_is_first_widget false _).
  destruct (addWidgets_later ws g1 Hd eq_refl) as (Hp & Ho & Hl).
  rewrite Hp, Ho, Hl. unfold primarySequence, g1. cbn.
  rewrite widgets_of_app. repeat split; reflexivity.
Qed.

(** C7: on a newly constructed drawer-mode group, of any run of [addWidget]
    calls the first puts its widget into the primary sequence and adds no
    class, and every later one appends its widget to the overlay sequence,
    in call order, and adds the children class to it.  On a group that is
    not a drawer every widget goes to the primary sequence, in call order,
    and no class is added. *)
Theorem addWidget_placement name id config vertical (g : Group) :
  construct name id config vertical = Ok g ->
  (is_drawer g = true ->
   forall w ws,
     primarySequence (fst (addWidgets (w :: ws) g)) = [w] /\
     overlaySequence (fst (addWidgets (w :: ws) g)) = ws /\
     snd (addWidgets (w :: ws) g)
       = (w, None)
         :: map (fun x => (x, Some (add_class_to_drawer_children g))) ws) /\
  (is_drawer g = false ->
   forall ws,
     primarySequence (fst (addWidgets ws g)) = ws /\
     overlaySequence (fst (addWidgets ws g)) = [] /\
     snd (addWidgets ws g) = map (fun x => (x, None)) ws).
Proof.
  intros Hnew.
  apply construct_Ok in Hnew as (_ & _ & _ & Hf & Hp0 & Ho0 & _).
  split.
  - intros Hd w ws.
    destruct (addWidgets_first g w ws Hd Hf) as (Hp & Ho & Hl).
    rewrite Hp, Ho, Hl, Hp0, Ho0. repeat split; reflexivity.
  - intros Hd ws.
    destruct (addWidgets_plain ws g Hd) as (Hp & Ho & Hl).
    rewrite Hp, Ho, Hl, Hp0, Ho0. repeat split; reflexivity.
Qed.

(** ** Orientation (C8) *)

Lemma isInt_asInt v : Json.isInt v = true -> exists n, Json.asInt v = Ok n.
Proof.
  destruct v; cbn; try discriminate.
  - intros ->. eauto.
  - intros ->. eauto.
  - intros H. apply andb_true_iff in H as [-> _]. eauto.
Qed.

Lemma isUInt_asUInt v : Json.isUInt v = true -> exists n, Json.asUInt v = Ok n.
Proof.
  destruct v; cbn; try discriminate.
  - intros ->. eauto.
  - intros ->. eauto.
  - intros H. apply andb_true_iff in H as [-> _]. eauto.
Qed.

Lemma isString_asString v : Json.isString v = true -> exists s, Json.asString v = Ok s.
Proof. destruct v; cbn; try discriminate; eauto. Qed.

Lemma isBool_asBool v : Json.isBool v = true -> exists b, Json.asBool v = Ok b.
Proof. destruct v; cbn; try discriminate; eauto. Qed.

Lemma index_other config k v k' :
  Json.index config k = Ok v -> exists v', Json.index config k' = Ok v'.
Proof. destruct config; cbn; try discriminate; eauto. Qed.

Lemma setup_drawer_succeeds vertical g members c :
  Json.index (config_ g) "drawer" = Ok (Json.objectValue members) ->
  Json.asBool (Json.find_member "click-to-reveal" members) = Ok c ->
  exists g', setup_drawer vertical g = Ok g'.
Proof.
  intros Hdrawer Hclick. unfold setup_drawer. rewrite Hdrawer. cbn.
  destruct (Json.isInt _) eqn:Hi;
    [apply isInt_asInt in Hi as [n ->]|]; cbn;
  (destruct (Json.isString _) eqn:Hs;
    [apply isString_asString in Hs as [cl ->]|]; cbn;
   (destruct (Json.isBool _) eqn:Hb;
     [apply isBool_asBool in Hb as [ltr ->]|]; cbn;
    (rewrite Hclick; cbn;
     destruct c; cbn; [eauto|];
     destruct (index_other _ _ _ "interval" Hdrawer) as [ci ->]; cbn;
     destruct (Json.equals_string ci "once" || negb (Json.isUInt ci)) eqn:Hu;
       cbn; [eauto|];
     apply orb_false_iff in Hu as [_ Hu]; apply negb_false_iff in Hu;
     apply isUInt_asUInt in Hu as [n' ->]; cbn; eauto))).
Qed.

Lemma construct_succeeds name id config vertical cfg_orientation s :
  Json.index config "orientation" = Ok cfg_orientation ->
  (if Json.empty cfg_orientation then Ok "orthogonal"
   else Json.asString cfg_orientation) = Ok s ->
  s ∈ orientation_names ->
  click_convertible config = true ->
  exists g, construct name id config vertical = Ok g.
Proof.
  intros Hidx Hs Hvalid Hclick. unfold Group_Group. cbn.
  rewrite Hidx. cbn. rewrite Hs. cbn.
  match goal with
  | |- context [orient_box s vertical ?b] =>
      destruct (orient_box_valid s vertical b Hvalid) as [b3 ->]
  end. cbn.
  destruct (index_other _ _ _ "drawer" Hidx) as [d Hd].
  unfold click_convertible in Hclick. rewrite Hd in Hclick. rewrite Hd. cbn.
  destruct d as [| | | | | | |members]; cbn; eauto.
  destruct (Json.asBool (Json.find_member "click-to-reveal" members))
    as [c|] eqn:Hc; [|discriminate].
  destruct (setup_drawer_succeeds vertical
              (set_box b3 (Group_init free_init reset_init interval_init
                                      name config vertical))
              members c Hd Hc) as [g' ->].
  cbn. eauto.
Qed.

Lemma bind_no_config_error {A B} (m : result A) (f : A -> result B) :
  no_config_error m -> (forall a, no_config_error (f a)) ->
  no_config_error (m ≫= f).
Proof. destruct m as [a|[msg|msg]]; cbn; auto. Qed.

Lemma index_no_config_error v k : no_config_error (Json.index v k).
Proof. destruct v; exact I. Qed.

Lemma asInt_no_config_error v : no_config_error (Json.asInt v).
Proof.
  destruct v; cbn; try exact I.
  - destruct (_ && _); exact I.
  - destruct (_ <=? _); exact I.
  - destruct (Json.InRange _ _ _); exact I.
Qed.

Lemma asUInt_no_config_error v : no_config_error (Json.asUInt v).
Proof.
  destruct v; cbn; try exact I.
  - destruct (_ && _); exact I.
  - destruct (_ <=? _); exact I.
  - destruct (Json.InRange _ _ _); exact I.
Qed.

Lemma asBool_no_config_error v : no_config_error (Json.asBool v).
Proof. destruct v; exact I. Qed.

Lemma asString_no_config_error v : no_config_error (Json.asString v).
Proof. destruct v; exact I. Qed.

Lemma setup_drawer_no_config_error vertical g :
  no_config_error (setup_drawer vertical g).
Proof.
  unfold setup_drawer.
  apply bind_no_config_error; [apply index_no_config_error | intros d].
  apply bind_no_config_error; [apply index_no_config_error | intros c1].
  apply bind_no_config_error;
    [destruct (Json.isInt c1); [apply asInt_no_config_error | exact I] | intros td].
  apply bind_no_config_error; [apply index_no_config_error | intros c2].
  apply bind_no_config_error;
    [destruct (Json.isString c2); [apply asString_no_config_error | exact I] | intros cl].
  apply bind_no_config_error; [apply index_no_config_error | intros c3].
  apply bind_no_config_error;
    [destruct (Json.isBool c3); [apply asBool_no_config_error | exact I] | intros ltr].
  apply bind_no_config_error; [apply index_no_config_error | intros c4].
  apply bind_no_config_error; [apply asBool_no_config_error | intros click].
  destruct click; cbn; [exact I|].
  apply bind_no_config_error; [apply index_no_config_error | intros ci].
  apply bind_no_config_error; [|intros iv; exact I].
  destruct (_ || _); [exact I|].
  apply bind_no_config_error; [apply asUInt_no_config_error | intros n; exact I].
Qed.

Lemma setup_drawer_orientation v g g' :
  setup_drawer v g = Ok g' ->
  Gtk.orientation (box g') = Gtk.orientation (box g).
Proof.
  unfold setup_drawer. intros H.
  do 9 bind_inv H.
  destruct a7 as [|]; cbn in H.
  - injection H as <-. destruct a5; reflexivity.
  - do 2 bind_inv H. injection H as <-. destruct a5; reflexivity.
Qed.

Lemma construct_orthogonal name id config vertical cfg_orientation g :
  construct name id config vertical = Ok g ->
  Json.index config "orientation" = Ok cfg_orientation ->
  Json.empty cfg_orientation = true ->
  Gtk.orientation (box g) =
    (if vertical then Gtk.ORIENTATION_HORIZONTAL else Gtk.ORIENTATION_VERTICAL).
Proof.
  unfold Group_Group. intros H Hidx Hempty. cbn in H.
  rewrite Hidx in H. cbn in H. rewrite Hempty in H. cbn in H.
  do 2 bind_inv H. injection H as <-. cbn.
  destruct (Json.isObject a).
  - apply setup_drawer_orientation in Ha0. rewrite Ha0.
    apply set_orientation_orientation.
  - injection Ha0 as <-. apply set_orientation_orientation.
Qed.

(** C8, as the code has it: when the orientation value is present and not
    empty (not null, not an empty array or object), a string reading outside
    the four names makes the constructor throw the invalid-orientation
    error, and a value without a string reading makes it throw JsonCpp's
    error; when the value is absent or empty the box is made orthogonal, and
    with that or with one of the four names the constructor never throws
    the invalid-orientation error and succeeds whenever the drawer's
    click-to-reveal value has a boolean reading. *)
Theorem orientation_checked name id config vertical cfg_orientation :
  Json.index config "orientation" = Ok cfg_orientation ->
  (Json.empty cfg_orientation = false ->
   (forall s, Json.asString cfg_orientation = Ok s -> s ∉ orientation_names ->
      construct name id config vertical
        = Throw (RuntimeError ("Invalid orientation value: " +:+ s))) /\
   (forall e, Json.asString cfg_orientation = Throw e ->
      construct name id config vertical = Throw e)) /\
  (forall s,
     (if Json.empty cfg_orientation then Ok "orthogonal"
      else Json.asString cfg_orientation) = Ok s ->
     s ∈ orientation_names ->
     no_config_error (construct name id config vertical) /\
     (click_convertible config = true ->
      exists g, construct name id config vertical = Ok g /\
        (Json.empty cfg_orientation = true ->
         Gtk.orientation (box g) =
           (if vertical then Gtk.ORIENTATION_HORIZONTAL
            else Gtk.ORIENTATION_VERTICAL)))).
Proof.
  intros Hidx. split.
  - intros Hne. split.
    + intros s Hs Hbad. unfold Group_Group. cbn.
      rewrite Hidx. cbn. rewrite Hne, Hs. cbn.
      rewrite (orient_box_invalid s vertical _ Hbad). reflexivity.
    + intros e Hs. unfold Group_Group. cbn.
      rewrite Hidx. cbn. rewrite Hne, Hs. reflexivity.
  - intros s Hs Hvalid. split.
    + unfold Group_Group. cbn. rewrite Hidx. cbn. rewrite Hs. cbn.
      match goal with
      | |- context [orient_box s vertical ?b] =>
          destruct (orient_box_valid s vertical b Hvalid) as [b3 ->]
      end. cbn.
      apply bind_no_config_error; [apply index_no_config_error | intros d].
      apply bind_no_config_error; [|intros g2; exact I].
      destruct (Json.isObject d);
        [apply setup_drawer_no_config_error | exact I].
    + intros Hclick.
      destruct (construct_succeeds name id config vertical cfg_orientation s
                  Hidx Hs Hvalid Hclick) as [g Hg].
      exists g. split; [exact Hg|].
      intros Hempty. exact (construct_orthogonal _ _ _ _ _ _ Hg Hidx Hempty).
Qed.

(** ** Drawer options (C6) *)

Lemma drawer_defaults name id config vertical members g :
  construct name id config vertical = Ok g ->
  Json.index config "drawer" = Ok (Json.objectValue members) ->
  (Json.isInt (Json.find_member "transition-duration" members) = false ->
   Gtk.transition_duration (revealer g) = 500) /\
  (Json.isString (Json.find_member "children-class" members) = false ->
   add_class_to_drawer_children g = "drawer-child") /\
  (Json.isBool (Json.find_member "transition-left-to-right" members) = false ->
   Gtk.children (box g)
     = [Gtk.mkPacking Gtk.ChildRevealer true true Gtk.PACK_END]) /\
  (Json.find_member "click-to-reveal" members = Json.nullValue ->
   click_to_reveal g = false).
Proof.
  unfold Group_Group. intros H Hdrawer.
  do 5 bind_inv H. injection H as <-. cbn.
  apply orient_box_Ok in Ha1 as (_ & _ & Hchildren).
  assert (Hc0 : Gtk.children a1 = []).
  { rewrite Hchildren. destruct (negb _); reflexivity. }
  cbn in Ha2. rewrite Hdrawer in Ha2. injection Ha2 as <-. cbn in Ha3.
  unfold setup_drawer in Ha3. cbn in Ha3. rewrite Hdrawer in Ha3. cbn in Ha3.
  bind_named Ha3 as td Htd. bind_named Ha3 as cl Hcl.
  bind_named Ha3 as ltr Hltr. bind_named Ha3 as click Hclick.
  assert (Hfinal :
    Gtk.transition_duration (revealer a3) = td mod 2 ^ 32 /\
    add_class_to_drawer_children a3 = cl /\
    Gtk.children (box a3) =
      (if ltr then [Gtk.mkPacking Gtk.ChildRevealer true true Gtk.PACK_END]
       else [Gtk.mkPacking Gtk.ChildRevealer true true Gtk.PACK_START]) /\
    click_to_reveal a3 = click).
  { destruct click; cbn in Ha3.
    - injection Ha3 as <-. destruct ltr; cbn; rewrite Hc0; repeat split; reflexivity.
    - bind_named Ha3 as ci Hci. bind_named Ha3 as iv Hiv. injection Ha3 as <-.
      destruct ltr; cbn; rewrite Hc0; repeat split; reflexivity. }
  destruct Hfinal as (Hf1 & Hf2 & Hf3 & Hf4).
  split; [|split; [|split]].
  - intros Hi. rewrite Hi in Htd. injection Htd as <-. rewrite Hf1. reflexivity.
  - intros Hs. rewrite Hs in Hcl. injection Hcl as <-. exact Hf2.
  - intros Hb. rewrite Hb in Hltr. injection Hltr as <-. exact Hf3.
  - intros Hn. rewrite Hn in Hclick. injection Hclick as <-. exact Hf4.
Qed.

(** ** Groups that are not drawers (C5) *)


End Properties.

(** * The properties at sample objects *)

Module SampleFacts.
Import Sample.

Lemma built_reachable (config : Json.Value) (evs : list Event) :
  succeeds (make config) = true ->
  reachable (group (run SIGRTMIN evs (boot (built config)))).
Proof.
  intros Hok. exists "group/sample", "", config, false, (built config), evs.
  split; [|reflexivity].
  unfold built. fold (make config).
  destruct (make config); [reflexivity | discriminate].
Defined.

(** C6: the constructor reads click-to-reveal with [asBool] and no [isBool]
    guard, unlike the three options before it: a string there makes the
    constructor throw, and a number is taken as a truth value instead of the
    default. *)
Theorem click_to_reveal_unguarded :
  make bad_click_config
    = Throw (LogicError "Value is not convertible to bool.") /\
  (exists g, make numeric_click_config = Ok g /\ click_to_reveal g = true).
Proof.
  split; [reflexivity|].
  exists (built numeric_click_config). split; reflexivity.
Qed.

Lemma timer_task_steps_witness :
  reachable (built hover_config) /\
  is_drawer (built hover_config) = true /\
  click_to_reveal (built hover_config) = false /\
  task_assigned (thread_ (built hover_config)) = true /\
  interval_ (built hover_config) = seconds 2.
Proof.
  pose proof (built_reachable hover_config [] eq_refl) as Hr.
  destruct (timer_task_steps SIGRTMIN true false seconds_max
              (built hover_config) Hr eq_refl eq_refl) as (Ht & _ & Hn & _).
  split; [exact Hr|]. split; [reflexivity|]. split; [reflexivity|].
  split; [exact Ht|].
  apply (Hn 2); [reflexivity | vm_compute; split; discriminate].
Defined.

Lemma hover_enter_leave_witness :
  click_to_reveal (built hover_config) = false /\
  reveal_state (snd (handleMouseEnter pointer_enter (built hover_config)))
    = Revealed.
Proof.
  split; [reflexivity|].
  destruct (hover_enter_leave (built hover_config) pointer_enter eq_refl)
    as ((_ & _ & Hs & _) & _).
  exact Hs.
Defined.

Lemma click_mode_toggle_witness :
  reachable (built click_config) /\
  click_to_reveal (built click_config) = true /\
  reveal_state (snd (handleToggle primary_click (built click_config)))
    = Revealed.
Proof.
  pose proof (built_reachable click_config [] eq_refl) as Hr.
  split; [exact Hr|]. split; [reflexivity|].
  destruct (click_mode_toggle SIGRTMIN true false seconds_max
              (built click_config) Hr) as (Hclick & _).
  destruct (Hclick eq_refl) as (Hprimary & _).
  destruct (Hprimary primary_click eq_refl) as (_ & Hs & _).
  exact Hs.
Defined.





Lemma addWidget_placement_witness :
  make hover_config = Ok (built hover_config) /\
  is_drawer (built hover_config) = true /\
  primarySequence (fst (addWidgets [1; 2; 3]%nat (built hover_config))) = [1%nat] /\
  overlaySequence (fst (addWidgets [1; 2; 3]%nat (built hover_config)))
    = [2; 3]%nat /\
  snd (addWidgets [1; 2; 3]%nat (built hover_config))
    = [(1%nat, None); (2%nat, Some "drawer-child"); (3%nat, Some "drawer-child")].
Proof.
  split; [reflexivity|]. split; [reflexivity|].
  destruct (addWidget_placement true false seconds_max "group/sample" ""
              hover_config false (built hover_config) eq_refl) as (Hdrawer & _).
  destruct (Hdrawer eq_refl 1%nat [2; 3]%nat) as (Hp & Ho & Hl).
  split; [exact Hp|]. split; [exact Ho | exact Hl].
Defined.

Lemma orientation_checked_witness :
  Json.index diagonal_orientation "orientation"
    = Ok (Json.stringValue "diagonal") /\
  make diagonal_orientation
    = Throw (RuntimeError "Invalid orientation value: diagonal") /\
  Json.index vertical_orientation "orientation"
    = Ok (Json.stringValue "vertical") /\
  succeeds (make vertical_orientation) = true.
Proof.
  split; [reflexivity|]. split.
  - destruct (orientation_checked true false seconds_max "group/sample" ""
                diagonal_orientation false (Json.stringValue "diagonal") eq_refl)
      as (Hbad & _).
    destruct (Hbad eq_refl) as (Hthrow & _).
    apply (Hthrow "diagonal" eq_refl).
    unfold orientation_names. rewrite !not_elem_of_cons.
    repeat split; try discriminate. apply not_elem_of_nil.
  - split; [reflexivity|].
    destruct (orientation_checked true false seconds_max "group/sample" ""
                vertical_orientation false (Json.stringValue "vertical") eq_refl)
      as (_ & Hgood).
    destruct (Hgood "vertical" eq_refl) as (_ & Hok).
    { unfold orientation_names. repeat constructor. }
    destruct (Hok eq_refl) as (g & Hg & _).
    unfold make. rewrite Hg. reflexivity.
Defined.

(** An empty array is none of the four names, and the constructor takes it. *)
Lemma empty_orientation_accepted :
  Json.index empty_array_orientation "orientation" = Ok (Json.arrayValue []) /\
  (forall s, Json.asString (Json.arrayValue []) <> Ok s) /\
  succeeds (make empty_array_orientation) = true.
Proof. repeat split; try reflexivity. intros s. discriminate. Qed.

Lemma hide_group_idempotent_witness :
  reachable (built hover_config) /\
  reveal_state (built hover_config) = Hidden /\
  hide_group (built hover_config) = built hover_config.
Proof.
  pose proof (built_reachable hover_config [] eq_refl) as Hr.
  split; [exact Hr|]. split; [reflexivity|].
  destruct (hide_group_idempotent SIGRTMIN true false seconds_max
              (built hover_config)) as (_ & Hhidden).
  destruct (Hhidden Hr eq_refl) as (Hsame & _).
  exact Hsame.
Defined.

Lemma marker_tracks_reveal_state_witness :
  reachable (group (run SIGRTMIN [MouseEnter pointer_enter; TimerRun; Refresh 42]
                        (boot (built hover_config)))) /\
  (visual_marker (group (run SIGRTMIN [MouseEnter pointer_enter; TimerRun; Refresh 42]
                             (boot (built hover_config)))) = true <->
   reveal_state (group (run SIGRTMIN [MouseEnter pointer_enter; TimerRun; Refresh 42]
                            (boot (built hover_config)))) = Revealed).
Proof.
  pose proof (built_reachable hover_config
                [MouseEnter pointer_enter; TimerRun; Refresh 42] eq_refl) as Hr.
  split; [exact Hr|].
  destruct (marker_tracks_reveal_state SIGRTMIN true false seconds_max)
    as (_ & _ & _ & Hreach & _).
  exact (Hreach _ Hr).
Defined.

(** The hover scenario: the thread parks, the pointer enters and leaves, a
    trigger arrives while the pointer is free, the woken thread finds the
    pending reveal and leaves the group alone, shows it in its next round,
    and hides it after the next sleep. *)
Example hover_scenario :
  map (fun evs => reveal_state (group (run SIGRTMIN evs (boot (built hover_config)))))
      [ [TimerRun; MouseEnter pointer_enter];
        [TimerRun; MouseEnter pointer_enter; MouseLeave pointer_leave];
        [TimerRun; MouseEnter pointer_enter; MouseLeave pointer_leave;
         Refresh 42; TimerWake];
        [TimerRun; MouseEnter pointer_enter; MouseLeave pointer_leave;
         Refresh 42; TimerWake; TimerRun];
        [TimerRun; MouseEnter pointer_enter; MouseLeave pointer_leave;
         Refresh 42; TimerWake; TimerRun; TimerWake] ]
  = [Revealed; Hidden; Hidden; Revealed; Hidden].
Proof. reflexivity. Qed.

(** The click scenario: two clicks of button 1, then the pointer passing
    over. *)
Example click_scenario :
  map (fun evs => reveal_state (group (run SIGRTMIN evs (boot (built click_config)))))
      [ [Toggle primary_click];
        [Toggle primary_click; Toggle primary_click];
        [Toggle primary_click; MouseEnter pointer_enter];
        [Toggle primary_click; MouseEnter pointer_enter; MouseLeave pointer_leave];
        [Refresh 42] ]
  = [Revealed; Hidden; Revealed; Revealed; Revealed].
Proof. reflexivity. Qed.

Example once_interval :
  interval_ (built once_config) = seconds_max /\
  sleep_for (interval_ (built once_config)) None = None /\
  sleep_for (interval_ (built once_config)) (Some 7) = Some 7.
Proof. repeat split; reflexivity. Qed.

End SampleFacts.

(** * Further properties of the constructor, the handlers and the timer *)

Section Further.

Variable SIGRTMIN : Z.
Variables free_init reset_init : bool.
Variable interval_init : Duration.

Local Abbreviation construct := (Group_Group free_init reset_init interval_init).
Local Abbreviation refresh' := (refresh SIGRTMIN).
Local Abbreviation step' := (step SIGRTMIN).
Local Abbreviation run' := (run SIGRTMIN).
Local Abbreviation Reachable' :=
  (Reachable SIGRTMIN free_init reset_init interval_init).

(** ** Runs, one event at a time *)

Lemma run_app evs1 evs2 w : run' (evs1 ++ evs2) w = run' evs2 (run' evs1 w).
Proof. unfold run. apply fold_left_app. Qed.

Lemma run_snoc evs ev w : run' (evs ++ [ev]) w = step' ev (run' evs w).
Proof. rewrite run_app. reflexivity. Qed.

Lemma run_invariant (Inv : World -> Prop) (allowed : Event -> bool) :
  (forall ev w, allowed ev = true -> Inv w -> Inv (step' ev w)) ->
  forall evs w, forallb allowed evs = true -> Inv w -> Inv (run' evs w).
Proof.
  intros Hstep. induction evs as [|ev evs IH]; intros w Hall Hw; cbn; [exact Hw|].
  cbn in Hall. apply andb_true_iff in Hall as [Hev Hall].
  apply IH; [exact Hall | apply Hstep; assumption].
Qed.

Lemma timer_task_halves g :
  timer_task g
    = SleepFor (interval_ (timer_before g)) (timer_before g)
               (fun g2 => Return (timer_after g2)).
Proof. reflexivity. Qed.

Lemma step_parked_timer ev w : parked_timer w -> parked_timer (step' ev w).
Proof.
  intros Hk. destruct ev; cbn [step]; try exact Hk.
  - destruct (parked w) eqn:Hp; [exact Hk|].
    destruct (task_assigned (thread_ (group w))); [|exact Hk].
    rewrite timer_task_halves. cbn. intros k [= <-] g. reflexivity.
  - destruct (parked w) as [k|] eqn:Hp; [|exact Hk].
    rewrite (Hk k Hp). cbn. intros k' [=].
Qed.

Lemma run_parked_timer evs w : parked_timer w -> parked_timer (run' evs w).
Proof.
  apply (run_invariant parked_timer (fun _ => true)).
  - intros ev w' _. apply step_parked_timer.
  - clear. induction evs; [reflexivity | assumption].
Qed.

Lemma boot_parked_timer g : parked_timer (boot g).
Proof. intros k [=]. Qed.

Lemma parked_timer_ok w : parked_timer w -> parked_ok w.
Proof.
  intros Hk k Hp g. rewrite (Hk k Hp). unfold timer_after.
  destruct (free_ g && negb (reset_ g)); auto.
Qed.

(** What one event does to the object, spelled out. *)
Lemma step_TimerRun w :
  parked w = None -> task_assigned (thread_ (group w)) = true ->
  step' TimerRun w
    = mkWorld (timer_before (group w)) (Some (fun g2 => Return (timer_after g2))).
Proof. intros Hp Ht. cbn [step]. rewrite Hp, Ht. reflexivity. Qed.

Lemma step_TimerWake w k :
  parked_timer w -> parked w = Some k ->
  step' TimerWake w = mkWorld (timer_after (group w)) None.
Proof. intros Hk Hp. cbn [step]. rewrite Hp, (Hk k Hp). reflexivity. Qed.

(** ** JsonCpp conversions stay in range *)

Lemma truncate_InRange r lo hi :
  Json.InRange r lo hi = true -> lo <= Json.truncate r <= hi.
Proof.
  unfold Json.InRange, Json.truncate. intros H.
  apply andb_true_iff in H as [Hlo Hhi].
  apply Qle_bool_iff in Hlo. apply Qle_bool_iff in Hhi.
  unfold Qle in Hlo, Hhi. cbn in Hlo, Hhi.
  destruct r as [num den]. cbn in *.
  assert (Hden : 0 < Z.pos den) by lia.
  destruct (Z.le_gt_cases 0 num) as [Hnum|Hnum].
  - rewrite Z.quot_div_nonneg by lia. split.
    + apply Z.div_le_lower_bound; lia.
    + apply Z.div_le_upper_bound; lia.
  - replace num with (- (- num)) by lia.
    rewrite Z.quot_opp_l by lia.
    rewrite Z.quot_div_nonneg by lia. split.
    + cut ((- num) / Z.pos den <= - lo); [lia|].
      apply Z.div_le_upper_bound; lia.
    + cut (- hi <= (- num) / Z.pos den); [lia|].
      apply Z.div_le_lower_bound; lia.
Qed.

Lemma isInt_range v n :
  stored_in_range v ->
  Json.isInt v = true -> Json.asInt v = Ok n -> Json.minInt <= n <= Json.maxInt.
Proof.
  destruct v; cbn; try discriminate.
  - intros _ H. rewrite H. intros [= <-].
    apply andb_true_iff in H as [H1 H2]. lia.
  - intros Hs H. rewrite H. intros [= <-]. unfold Json.minInt. lia.
  - intros _ H. apply andb_true_iff in H as [H _]. rewrite H. intros [= <-].
    apply truncate_InRange, H.
Qed.

Lemma isUInt_range v n :
  stored_in_range v ->
  Json.isUInt v = true -> Json.asUInt v = Ok n -> 0 <= n <= Json.maxUInt.
Proof.
  destruct v; cbn; try discriminate.
  - intros _ H. rewrite H. intros [= <-].
    apply andb_true_iff in H as [H1 H2]. lia.
  - intros Hs H. rewrite H. intros [= <-]. lia.
  - intros _ H. apply andb_true_iff in H as [H _]. rewrite H. intros [= <-].
    apply truncate_InRange, H.
Qed.

(** ** The constructor, step by step *)

Lemma setup_drawer_inv vertical g g' :
  setup_drawer vertical g = Ok g' ->
  exists d c1 td c2 cl c3 ltr c4 click,
    Json.index (config_ g) "drawer" = Ok d /\
    Json.index d "transition-duration" = Ok c1 /\
    (if Json.isInt c1 then Json.asInt c1 else Ok 500) = Ok td /\
    Json.index d "children-class" = Ok c2 /\
    (if Json.isString c2 then Json.asString c2 else Ok "drawer-child") = Ok cl /\
    Json.index d "transition-left-to-right" = Ok c3 /\
    (if Json.isBool c3 then Json.asBool c3 else Ok true) = Ok ltr /\
    Json.index d "click-to-reveal" = Ok c4 /\
    Json.asBool c4 = Ok click /\
    box g' = (if ltr then Gtk.pack_end Gtk.ChildRevealer true true (box g)
              else Gtk.pack_start Gtk.ChildRevealer true true (box g)) /\
    revealer g' =
      Gtk.revealer_add
        (Gtk.revealer_add_class "drawer"
           (Gtk.set_reveal_child false
              (Gtk.set_transition_duration td
                 (Gtk.set_transition_type (getPreferredTransitionType vertical)
                    (revealer g))))) /\
    revealer_box g' = revealer_box g /\
    is_drawer g' = true /\
    click_to_reveal g' = click /\
    add_class_to_drawer_children g' = cl /\
    name_ g' = name_ g /\ config_ g' = config_ g /\
    event_box_ g' = event_box_ g /\
    is_first_widget g' = is_first_widget g /\
    free_ g' = free_ g /\ reset_ g' = reset_ g.
Proof.
  unfold setup_drawer. intros H.
  bind_named H as d Hd. bind_named H as c1 Hc1. bind_named H as td Htd.
  bind_named H as c2 Hc2. bind_named H as cl Hcl.
  bind_named H as c3 Hc3. bind_named H as ltr Hltr.
  bind_named H as c4 Hc4. bind_named H as click Hclick.
  exists d, c1, td, c2, cl, c3, ltr, c4, click.
  destruct click; cbn in H.
  - injection H as <-. cbn. repeat split; assumption.
  - bind_named H as ci Hci. bind_named H as iv Hiv. injection H as <-.
    cbn. repeat split; assumption.
Qed.

Lemma construct_inv name id config vertical g :
  construct name id config vertical = Ok g ->
  exists s b3 d,
    orientation_reading config = Ok s /\
    orient_box s vertical (named_box name id vertical) = Ok b3 /\
    Json.index config "drawer" = Ok d /\
    ((Json.isObject d = true /\
      exists g2,
        setup_drawer vertical
          (set_box b3 (Group_init free_init reset_init interval_init
                                  name config vertical)) = Ok g2 /\
        g = in_event_box g2) \/
     (Json.isObject d = false /\
      g = in_event_box
            (set_box b3 (Group_init free_init reset_init interval_init
                                    name config vertical)))).
Proof.
  unfold Group_Group. intros H. cbn in H.
  bind_named H as v Hv. bind_named H as s Hs. bind_named H as b3 Hb3.
  bind_named H as d Hd. bind_named H as g2 Hg2. injection H as <-.
  exists s, b3, d.
  split; [unfold orientation_reading; rewrite Hv; exact Hs|].
  split; [exact Hb3|]. split; [exact Hd|].
  destruct (Json.isObject d).
  - left. split; [reflexivity|]. exists g2. split; [exact Hg2 | reflexivity].
  - right. split; [reflexivity|]. injection Hg2 as <-. reflexivity.
Qed.

Lemma run_same_look g0 evs : same_look g0 (group (run' evs (boot g0))).
Proof.
  apply (run_keeps SIGRTMIN (same_look g0)).
  - intros g Hg. exact Hg.
  - intros g Hg. exact Hg.
  - intros v g Hg. exact Hg.
  - intros v g Hg. exact Hg.
  - intros g Hg. exact Hg.
  - intros x g Hg. unfold addWidget, same_look. destruct (getBox g); exact Hg.
  - repeat split.
  - apply boot_parked_ok.
Qed.

(** ** When construction succeeds *)

(** X1: construction succeeds exactly when the configuration is null or an
    object whose orientation reads as one of the four names (an absent or
    empty one reads as orthogonal) and whose drawer, if it is an object, has
    a click-to-reveal value with a boolean reading. *)
Theorem construction_succeeds_iff name id config vertical :
  (exists g, construct name id config vertical = Ok g) <->
  (exists s, orientation_reading config = Ok s /\ s ∈ orientation_names) /\
  click_convertible config = true.
Proof.
  split.
  - intros [g Hg].
    destruct (construct_inv _ _ _ _ _ Hg) as (s & b3 & d & Hs & Hb3 & Hd & Hcase).
    split.
    + exists s. split; [exact Hs|]. apply orient_box_Ok in Hb3. apply Hb3.
    + unfold click_convertible. rewrite Hd.
      destruct Hcase as [(Hobj & g2 & Hg2 & _) | (Hobj & _)].
      * destruct d; try discriminate Hobj.
        apply setup_drawer_inv in Hg2
          as (d' & c1 & td & c2 & cl & c3 & ltr & c4 & click
              & Hd' & _ & _ & _ & _ & _ & _ & Hc4 & Hclick & _).
        cbn in Hd'. rewrite Hd in Hd'. injection Hd' as <-.
        cbn in Hc4. injection Hc4 as <-. rewrite Hclick. reflexivity.
      * destruct d; try reflexivity. discriminate Hobj.
  - intros [(s & Hs & Hnames) Hclick].
    unfold orientation_reading in Hs. bind_named Hs as v Hv.
    exact (construct_succeeds _ _ _ name id config vertical v s Hv Hs Hnames Hclick).
Qed.

(** ** Orientations *)

Lemma orient_box_orientation s v b b' :
  orient_box s v b = Ok b' ->
  (s = "inherit" -> Gtk.orientation b' = Gtk.orientation b) /\
  (s = "orthogonal" -> Gtk.orientation b' = crossed_orientation v) /\
  (s = "vertical" -> Gtk.orientation b' = Gtk.ORIENTATION_VERTICAL) /\
  (s = "horizontal" -> Gtk.orientation b' = Gtk.ORIENTATION_HORIZONTAL).
Proof.
  unfold orient_box.
  destruct (String.eqb_spec s "inherit") as [->|_];
    [intros [= <-]; repeat split; intros;
     first [discriminate | apply set_orientation_orientation | reflexivity]|].
  destruct (String.eqb_spec s "orthogonal") as [->|_];
    [intros [= <-]; repeat split; intros;
     first [discriminate | apply set_orientation_orientation | reflexivity]|].
  destruct (String.eqb_spec s "vertical") as [->|_];
    [intros [= <-]; repeat split; intros;
     first [discriminate | apply set_orientation_orientation | reflexivity]|].
  destruct (String.eqb_spec s "horizontal") as [->|_];
    [intros [= <-]; repeat split; intros;
     first [discriminate | apply set_orientation_orientation | reflexivity]|].
  discriminate.
Qed.

Lemma named_box_orientation name id vertical :
  Gtk.orientation (named_box name id vertical) = passed_orientation vertical.
Proof. unfold named_box. destruct (negb _); reflexivity. Qed.

Lemma construct_boxes name id config vertical g :
  construct name id config vertical = Ok g ->
  exists s b3,
    orientation_reading config = Ok s /\
    orient_box s vertical (named_box name id vertical) = Ok b3 /\
    Gtk.orientation (box g) = Gtk.orientation b3 /\
    Gtk.orientation (revealer_box g) = passed_orientation vertical.
Proof.
  intros Hg.
  destruct (construct_inv _ _ _ _ _ Hg) as (s & b3 & d & Hs & Hb3 & Hd & Hcase).
  exists s, b3. split; [exact Hs|]. split; [exact Hb3|].
  destruct Hcase as [(_ & g2 & Hg2 & ->) | (_ & ->)].
  - apply setup_drawer_inv in Hg2
      as (d' & c1 & td & c2 & cl & c3 & ltr & c4 & click
          & _ & _ & _ & _ & _ & _ & _ & _ & _ & Hbox & _ & Hrb & _).
    cbn. rewrite Hbox, Hrb. cbn. split; [destruct ltr; reflexivity|].
    destruct vertical; reflexivity.
  - cbn. split; [reflexivity | destruct vertical; reflexivity].
Qed.

(** X2: the orientation option decides the orientation of [box] only: inherit
    keeps the one passed in, orthogonal (also the default) crosses it,
    vertical and horizontal set it.  The box inside the revealer always
    keeps the orientation passed in, and no event changes either. *)
Theorem orientation_follows_option name id config vertical g0 evs :
  construct name id config vertical = Ok g0 ->
  exists s,
    orientation_reading config = Ok s /\
    (s = "inherit" ->
     Gtk.orientation (box (group (run' evs (boot g0))))
       = passed_orientation vertical) /\
    (s = "orthogonal" ->
     Gtk.orientation (box (group (run' evs (boot g0))))
       = crossed_orientation vertical) /\
    (s = "vertical" ->
     Gtk.orientation (box (group (run' evs (boot g0))))
       = Gtk.ORIENTATION_VERTICAL) /\
    (s = "horizontal" ->
     Gtk.orientation (box (group (run' evs (boot g0))))
       = Gtk.ORIENTATION_HORIZONTAL) /\
    Gtk.orientation (revealer_box (group (run' evs (boot g0))))
      = passed_orientation vertical.
Proof.
  intros Hg.
  destruct (construct_boxes _ _ _ _ _ Hg) as (s & b3 & Hs & Hb3 & Hbox & Hrb).
  destruct (run_same_look g0 evs) as (_ & _ & Ho & _ & _ & Hro & _).
  rewrite Ho, Hro, Hbox, Hrb.
  destruct (orient_box_orientation _ _ _ _ Hb3) as (H1 & H2 & H3 & H4).
  exists s. split; [exact Hs|].
  rewrite named_box_orientation in H1.
  repeat split; assumption.
Qed.

(** ** The revealer *)

Lemma construct_revealer name id config vertical g :
  construct name id config vertical = Ok g ->
  exists d,
    Json.index config "drawer" = Ok d /\
    is_drawer g = Json.isObject d /\
    (Json.isObject d = false ->
     revealer g = Gtk.new_Revealer /\ Gtk.children (box g) = []) /\
    (Json.isObject d = true ->
     exists c1 td c3 ltr,
       Json.index d "transition-duration" = Ok c1 /\
       (if Json.isInt c1 then Json.asInt c1 else Ok 500) = Ok td /\
       Json.index d "transition-left-to-right" = Ok c3 /\
       (if Json.isBool c3 then Json.asBool c3 else Ok true) = Ok ltr /\
       revealer g =
         Gtk.mkRevealer (getPreferredTransitionType vertical) (td mod 2 ^ 32)
                        false ["drawer"] true /\
       Gtk.children (box g) = [revealer_packing ltr]).
Proof.
  intros Hg.
  destruct (construct_inv _ _ _ _ _ Hg) as (s & b3 & d & Hs & Hb3 & Hd & Hcase).
  apply orient_box_Ok in Hb3 as (_ & _ & Hchildren).
  assert (Hc0 : Gtk.children b3 = []).
  { rewrite Hchildren. unfold named_box. destruct (negb _); reflexivity. }
  exists d. split; [exact Hd|].
  destruct Hcase as [(Hobj & g2 & Hg2 & ->) | (Hobj & ->)].
  - apply setup_drawer_inv in Hg2
      as (d' & c1 & td & c2 & cl & c3 & ltr & c4 & click
          & Hd' & Hc1 & Htd & _ & _ & Hc3 & Hltr & _ & _ & Hbox & Hrev & _
          & Hdr & _).
    cbn in Hd'. rewrite Hd in Hd'. injection Hd' as <-.
    cbn. rewrite Hdr, Hobj. split; [reflexivity|].
    split; [discriminate|]. intros _.
    exists c1, td, c3, ltr.
    split; [exact Hc1|]. split; [exact Htd|].
    split; [exact Hc3|]. split; [exact Hltr|].
    rewrite Hbox, Hrev. cbn.
    split; [reflexivity|]. destruct ltr; cbn; rewrite Hc0; reflexivity.
  - cbn. rewrite Hobj. split; [reflexivity|].
    split; [|discriminate]. intros _. split; [reflexivity | exact Hc0].
Qed.


(** X4: the transition duration of a drawer is 500 ms unless the option is an
    int; an int is passed on as an unsigned number, so a value from 0 up is
    kept and a negative one wraps around to itself plus 2^32.  No event
    changes it. *)
Theorem transition_duration_wraps name id config vertical g0 evs members :
  construct name id config vertical = Ok g0 ->
  Json.index config "drawer" = Ok (Json.objectValue members) ->
  stored_in_range (Json.find_member "transition-duration" members) ->
  (Json.isInt (Json.find_member "transition-duration" members) = false ->
   Gtk.transition_duration (revealer (group (run' evs (boot g0)))) = 500) /\
  (Json.isInt (Json.find_member "transition-duration" members) = true ->
   exists n,
     Json.asInt (Json.find_member "transition-duration" members) = Ok n /\
     (0 <= n ->
      Gtk.transition_duration (revealer (group (run' evs (boot g0)))) = n) /\
     (n < 0 ->
      Gtk.transition_duration (revealer (group (run' evs (boot g0))))
        = n + 2 ^ 32)).
Proof.
  intros Hg Hd Hstored.
  destruct (construct_revealer _ _ _ _ _ Hg) as (d & Hd' & _ & _ & Hdrawer).
  rewrite Hd in Hd'. injection Hd' as <-.
  destruct (Hdrawer eq_refl) as (c1 & td & c3 & ltr & Hc1 & Htd & _ & _ & Hrev & _).
  cbn in Hc1. injection Hc1 as <-.
  destruct (run_same_look g0 evs)
    as (_ & _ & _ & _ & _ & _ & _ & Hsame & _).
  rewrite Hsame, Hrev. cbn. split.
  - intros Hi. rewrite Hi in Htd. injection Htd as <-. reflexivity.
  - intros Hi. rewrite Hi in Htd. exists td. split; [exact Htd|].
    pose proof (isInt_range _ _ Hstored Hi Htd) as Hrange.
    unfold Json.minInt, Json.maxInt in Hrange. split.
    + intros Hpos. apply Z.mod_small. lia.
    + intros Hneg. symmetry. apply (Z.mod_unique _ _ (-1)); lia.
Qed.

(** ** The timer's interval and existence *)

Lemma isUInt_not_string v s : Json.isUInt v = true -> Json.equals_string v s = false.
Proof. destruct v; cbn; try discriminate; reflexivity. Qed.

(** X5: in hover mode the timer's interval is a number of seconds exactly when
    the interval option is an unsigned int, and then it is that number; with
    anything else (absent, "once", any other string, a negative or
    fractional number) the interval is disabled. *)
Theorem interval_from_option name id config vertical g0 evs :
  construct name id config vertical = Ok g0 ->
  is_drawer g0 = true -> click_to_reveal g0 = false ->
  exists cfg_interval,
    Json.index config "interval" = Ok cfg_interval /\
    (Json.isUInt cfg_interval = false ->
     interval_ (group (run' evs (boot g0))) = seconds_max) /\
    (Json.isUInt cfg_interval = true ->
     exists n,
       Json.asUInt cfg_interval = Ok n /\
       interval_ (group (run' evs (boot g0))) = seconds n /\
       (stored_in_range cfg_interval -> 0 <= n <= Json.maxUInt)).
Proof.
  intros Hg Hd Hc.
  destruct (construct_interval _ _ _ _ _ _ _ _ Hg Hd Hc) as (ci & Hci & Hint).
  destruct (run_same_setup SIGRTMIN g0 evs) as (_ & _ & _ & _ & Hiv & _).
  rewrite Hiv. exists ci. split; [exact Hci|]. split.
  - intros Hu. rewrite Hu, orb_true_r in Hint. congruence.
  - intros Hu. rewrite Hu, (isUInt_not_string ci "once" Hu) in Hint. cbn in Hint.
    bind_named Hint as n Hn. injection Hint as Hint.
    exists n. split; [exact Hn|]. split; [congruence|].
    intros Hs. exact (isUInt_range _ _ Hs Hu Hn).
Qed.

(** X6: the timer task exists exactly for a drawer in hover mode, from
    construction on and after every event. *)
Theorem timer_exists_iff_hover_drawer (g : Group) :
  Reachable' g ->
  task_assigned (thread_ g) = is_drawer g && negb (click_to_reveal g).
Proof.
  intros (name & id & config & vertical & g0 & evs & Hnew & <-).
  destruct (run_same_setup SIGRTMIN g0 evs) as (_ & Hd & Hc & _ & _ & Ht).
  rewrite Hd, Hc, Ht.
  apply construct_Ok in Hnew. apply Hnew.
Qed.

(** ** Where the children are, whatever happens in between *)

Lemma step_no_add (P : Group -> Prop) :
  (forall g, P g -> P (show_group g)) ->
  (forall g, P g -> P (hide_group g)) ->
  (forall v g, P g -> P (set_free v g)) ->
  (forall v g, P g -> P (set_reset v g)) ->
  (forall g, P g -> P (set_thread (wake_up (thread_ g)) g)) ->
  forall ev w, is_add ev = false -> P (group w) -> parked_timer w ->
  P (group (step' ev w)).
Proof.
  intros Pshow Phide Pfree Preset Pwake ev w Hev HP Hk.
  destruct ev; cbn [step]; try discriminate Hev.
  - apply handleMouseEnter_keeps; assumption.
  - apply handleMouseLeave_keeps; assumption.
  - apply handleToggle_keeps; assumption.
  - apply refresh_keeps; assumption.
  - exact HP.
  - destruct (parked w) eqn:Hp; [exact HP|].
    destruct (task_assigned (thread_ (group w))); [|exact HP].
    rewrite timer_task_halves. cbn. unfold timer_before.
    destruct (free_ (group w) && reset_ (group w)); auto.
  - destruct (parked w) as [k|] eqn:Hp; [|exact HP].
    rewrite (Hk k Hp). cbn. unfold timer_after.
    destruct (free_ (group w) && negb (reset_ (group w))); auto.
Qed.

Lemma widgets_of_packings ws :
  Gtk.widgets_of (map widget_packing ws) = ws.
Proof. induction ws as [|w ws IH]; cbn; congruence. Qed.

Lemma added_widgets_snoc evs ev :
  added_widgets (evs ++ [ev])
    = (added_widgets evs
       ++ match ev with AddWidget x => [x] | _ => [] end)%list.
Proof.
  unfold added_widgets. rewrite flat_map_app. cbn. rewrite app_nil_r. reflexivity.
Qed.

Lemma run_children g0 evs :
  is_first_widget g0 = true ->
  is_drawer (group (run' evs (boot g0))) = is_drawer g0 /\
  is_first_widget (group (run' evs (boot g0)))
    = (match added_widgets evs with [] => true | _ => false end) /\
  Gtk.children (box (group (run' evs (boot g0))))
    = (Gtk.children (box g0)
       ++ map widget_packing
            (if is_drawer g0 then take 1 (added_widgets evs)
             else added_widgets evs))%list /\
  Gtk.children (revealer_box (group (run' evs (boot g0))))
    = (Gtk.children (revealer_box g0)
       ++ map widget_packing
            (if is_drawer g0 then drop 1 (added_widgets evs) else []))%list.
Proof.
  intros Hfirst. induction evs as [|ev evs IH] using rev_ind.
  - cbn. rewrite Hfirst. destruct (is_drawer g0); cbn; rewrite !app_nil_r;
      repeat split; reflexivity.
  - rewrite run_snoc, added_widgets_snoc.
    pose proof (run_parked_timer evs (boot g0) (boot_parked_timer g0)) as Hk.
    set (w := run' evs (boot g0)) in *.
    destruct IH as (Hd & Hf & Hb & Hr).
    destruct (is_add ev) eqn:Hadd.
    + destruct ev; try discriminate Hadd. cbn [step group fst].
      unfold addWidget, getBox. rewrite Hd, Hf.
      destruct (is_drawer g0) eqn:Hdrawer.
      * destruct (added_widgets evs) as [|a rest] eqn:Hadded; cbn.
        -- rewrite Hd, Hb, Hr. cbn. rewrite !app_nil_r.
           repeat split; reflexivity.
        -- rewrite Hd, Hb, Hr. cbn.
           rewrite !take_0, !drop_0, map_app, <- app_assoc.
           repeat split; reflexivity.
      * cbn. rewrite Hd, Hb, Hr. rewrite map_app, <- app_assoc. cbn.
        destruct (added_widgets evs ++ [w0])%list eqn:Hrest;
          [destruct (added_widgets evs); discriminate|].
        repeat split; reflexivity.
    + assert (Hnone : match ev with AddWidget x => [x] | _ => [] end = []).
      { destruct ev; try reflexivity. discriminate Hadd. }
      rewrite Hnone, app_nil_r.
      apply (step_no_add
               (fun g => is_drawer g = is_drawer g0 /\
                         is_first_widget g = _ /\
                         Gtk.children (box g) = _ /\
                         Gtk.children (revealer_box g) = _));
        try (intros; assumption); try exact Hk.
      repeat split; assumption.
Qed.

Lemma construct_inner_box name id config vertical g :
  construct name id config vertical = Ok g ->
  Gtk.children (revealer_box g) = [].
Proof.
  intros Hg.
  destruct (construct_inv _ _ _ _ _ Hg) as (s & b3 & d & _ & _ & _ & Hcase).
  destruct Hcase as [(_ & g2 & Hg2 & ->) | (_ & ->)]; [|reflexivity].
  apply setup_drawer_inv in Hg2
    as (d' & c1 & td & c2 & cl & c3 & ltr & c4 & click
        & _ & _ & _ & _ & _ & _ & _ & _ & _ & _ & _ & Hrb & _).
  cbn. rewrite Hrb. reflexivity.
Qed.

(** X7: whatever other events come in between, the widgets of the [addWidget]
    calls made so far are placed by call order alone: a drawer has the first
    of them as its primary sequence and the rest, in call order, as its
    overlay sequence; a group that is not a drawer has all of them, in call
    order, as its primary sequence. *)
Theorem children_follow_calls name id config vertical g0 evs :
  construct name id config vertical = Ok g0 ->
  (is_drawer g0 = true ->
   primarySequence (group (run' evs (boot g0))) = take 1 (added_widgets evs) /\
   overlaySequence (group (run' evs (boot g0))) = drop 1 (added_widgets evs)) /\
  (is_drawer g0 = false ->
   primarySequence (group (run' evs (boot g0))) = added_widgets evs /\
   overlaySequence (group (run' evs (boot g0))) = []).
Proof.
  intros Hg.
  pose proof (construct_inner_box _ _ _ _ _ Hg) as Hinner.
  apply construct_Ok in Hg as (_ & _ & _ & Hfirst & Hp0 & _).
  destruct (run_children g0 evs Hfirst) as (_ & _ & Hb & Hr).
  unfold primarySequence, overlaySequence in *.
  rewrite Hb, Hr, Hinner, widgets_of_app, Hp0. cbn.
  split; intros ->; rewrite !widgets_of_packings; split; reflexivity.
Qed.

(** X8: every widget is packed from the start, without expand or fill, in both
    boxes.  In a drawer the revealer is the box's first child for good,
    packed from the end unless transition-left-to-right is the boolean
    false; in a group that is not a drawer the box holds no revealer. *)
Theorem packing_layout name id config vertical g0 evs :
  construct name id config vertical = Ok g0 ->
  exists d,
    Json.index config "drawer" = Ok d /\
    Gtk.children (revealer_box (group (run' evs (boot g0))))
      = map widget_packing (overlaySequence (group (run' evs (boot g0)))) /\
    (Json.isObject d = false ->
     Gtk.children (box (group (run' evs (boot g0))))
       = map widget_packing (primarySequence (group (run' evs (boot g0))))) /\
    (Json.isObject d = true ->
     exists cfg_ltr,
       Json.index d "transition-left-to-right" = Ok cfg_ltr /\
       Gtk.children (box (group (run' evs (boot g0))))
         = revealer_packing
             (match cfg_ltr with Json.booleanValue b => b | _ => true end)
           :: map widget_packing
                (primarySequence (group (run' evs (boot g0))))).
Proof.
  intros Hg.
  pose proof (construct_inner_box _ _ _ _ _ Hg) as Hinner.
  destruct (construct_revealer _ _ _ _ _ Hg) as (d & Hd & Hdr & Hplain & Hdrawer).
  pose proof (construct_Ok _ _ _ _ _ _ _ _ Hg) as (_ & _ & _ & Hfirst & _).
  destruct (run_children g0 evs Hfirst) as (_ & _ & Hb & Hr).
  exists d. split; [exact Hd|].
  unfold primarySequence, overlaySequence.
  rewrite Hb, Hr, Hinner, Hdr. cbn [app].
  split; [|split].
  - rewrite widgets_of_packings. reflexivity.
  - intros Hobj. destruct (Hplain Hobj) as (_ & Hc0).
    rewrite Hc0, Hobj. cbn [app]. rewrite widgets_of_packings. reflexivity.
  - intros Hobj.
    destruct (Hdrawer Hobj) as (c1 & td & c3 & ltr & _ & _ & Hc3 & Hltr & _ & Hc0).
    exists c3. split; [exact Hc3|].
    rewrite Hc0, Hobj. cbn [app Gtk.widgets_of revealer_packing Gtk.child].
    rewrite widgets_of_packings.
    assert (Hread : ltr = match c3 with Json.booleanValue b => b | _ => true end).
    { destruct c3; cbn in Hltr; congruence. }
    rewrite Hread. reflexivity.
Qed.

(** ** The pointer inside wins over the timer and the trigger *)

Lemma step_hovered ev w :
  stays_inside ev = true -> parked_timer w -> hovered (group w) ->
  hovered (group (step' ev w)).
Proof.
  intros Hev Hk (Hc & Hf & Hs & Hm).
  destruct ev; cbn [step group].
  - unfold handleMouseEnter. rewrite Hc. cbn.
    repeat split; try assumption. apply show_group_marker.
  - unfold handleMouseLeave. unfold stays_inside in Hev. cbn in Hev.
    apply negb_true_iff in Hev. rewrite Hev, andb_false_r. cbn.
    repeat split; assumption.
  - unfold handleToggle. rewrite Hc. cbn. repeat split; assumption.
  - unfold refresh.
    destruct (Json.index (config_ (group w)) "signal") as [v|]; cbn;
      [|repeat split; assumption].
    destruct (Json.asInt v) as [n|]; cbn; [|repeat split; assumption].
    destruct (sig =? _); cbn; [|repeat split; assumption].
    unfold handleToggle. rewrite Hc. cbn. rewrite Hf. cbn.
    repeat split; assumption.
  - repeat split; assumption.
  - unfold addWidget. cbn. destruct (getBox (group w)); repeat split; assumption.
  - destruct (parked w) eqn:Hp; [repeat split; assumption|].
    destruct (task_assigned (thread_ (group w))); [|repeat split; assumption].
    rewrite timer_task_halves. cbn. unfold timer_before. rewrite Hf. cbn.
    repeat split; assumption.
  - destruct (parked w) as [k|] eqn:Hp; [|repeat split; assumption].
    rewrite (Hk k Hp). cbn. unfold timer_after. rewrite Hf. cbn.
    repeat split; assumption.
Qed.

(** X9: in hover mode, once the pointer has entered, the group stays Revealed
    and marked through every event (timer rounds, triggers, clicks, added
    widgets, moves into a descendant) until the pointer leaves the group. *)
Theorem pointer_inside_stays_revealed name id config vertical g0 evs1 e evs2 :
  construct name id config vertical = Ok g0 ->
  click_to_reveal g0 = false ->
  forallb stays_inside evs2 = true ->
  reveal_state (group (run' (evs1 ++ MouseEnter e :: evs2) (boot g0))) = Revealed /\
  visual_marker (group (run' (evs1 ++ MouseEnter e :: evs2) (boot g0))) = true /\
  free_ (group (run' (evs1 ++ MouseEnter e :: evs2) (boot g0))) = false.
Proof.
  intros Hg Hc Hall.
  rewrite run_app. cbn [run fold_left].
  fold (run' evs2 (step' (MouseEnter e) (run' evs1 (boot g0)))).
  pose proof (run_parked_timer evs1 (boot g0) (boot_parked_timer g0)) as Hk.
  destruct (run_same_setup SIGRTMIN g0 evs1) as (_ & _ & Hc1 & _).
  rewrite Hc in Hc1.
  set (w := run' evs1 (boot g0)) in *.
  assert (Hinv : parked_timer (step' (MouseEnter e) w) /\
                 hovered (group (step' (MouseEnter e) w))).
  { split; [apply step_parked_timer, Hk|].
    cbn [step group]. unfold handleMouseEnter. rewrite Hc1. cbn.
    split; [exact Hc1|]. split; [reflexivity|]. split; [reflexivity|].
    apply show_group_marker. }
  pose proof (run_invariant
                (fun w => parked_timer w /\ hovered (group w)) stays_inside) as Hrun.
  destruct (Hrun (fun ev w' Hev Hw =>
                    conj (step_parked_timer ev w' (proj1 Hw))
                         (step_hovered ev w' Hev (proj1 Hw) (proj2 Hw)))
                 evs2 _ Hall Hinv) as (_ & _ & Hf & Hs & Hm).
  repeat split; assumption.
Qed.

(** ** A trigger while the pointer is away *)

Lemma refresh_pending sig g :
  signal_id SIGRTMIN g = Ok sig -> click_to_reveal g = false -> free_ g = true ->
  refresh' sig g = Ok (set_thread (wake_up (thread_ g)) (set_reset true g)).
Proof.
  unfold signal_id, refresh. intros Hs Hc Hf.
  destruct (Json.index (config_ g) "signal") as [v|]; [|discriminate].
  cbn in *. destruct (Json.asInt v) as [n|]; [|discriminate].
  cbn in *. injection Hs as <-. rewrite Z.eqb_refl.
  unfold handleToggle. rewrite Hc. cbn. rewrite Hf. reflexivity.
Qed.

(** X10: in hover mode with the pointer away, a matching trigger is followed by
    a reveal in the timer thread's next round and by a hide after the sleep
    of that round; a thread that was asleep when the trigger came wakes
    without hiding, since the reveal is pending. *)
Theorem trigger_reveals_then_hides name id config vertical g0 evs sig :
  construct name id config vertical = Ok g0 ->
  is_drawer g0 = true -> click_to_reveal g0 = false ->
  free_ (group (run' evs (boot g0))) = true ->
  signal_id SIGRTMIN g0 = Ok sig ->
  (parked (run' evs (boot g0)) = None ->
   reveal_state (group (run' (evs ++ [Refresh sig; TimerRun]) (boot g0)))
     = Revealed /\
   reveal_state (group (run' (evs ++ [Refresh sig; TimerRun; TimerWake]) (boot g0)))
     = Hidden) /\
  (parked (run' evs (boot g0)) <> None ->
   reveal_state (group (run' (evs ++ [Refresh sig; TimerWake]) (boot g0)))
     = reveal_state (group (run' evs (boot g0))) /\
   reveal_state (group (run' (evs ++ [Refresh sig; TimerWake; TimerRun]) (boot g0)))
     = Revealed /\
   reveal_state
     (group (run' (evs ++ [Refresh sig; TimerWake; TimerRun; TimerWake]) (boot g0)))
     = Hidden).
Proof.
  intros Hg Hd Hc Hf Hsig.
  pose proof (run_parked_timer evs (boot g0) (boot_parked_timer g0)) as Hk.
  destruct (run_same_setup SIGRTMIN g0 evs) as (Hcfg & _ & Hc1 & _ & _ & Ht).
  pose proof (construct_Ok _ _ _ _ _ _ _ _ Hg) as (_ & _ & _ & _ & _ & _ & Hta & _).
  rewrite Hta, Hd, Hc in Ht. cbn in Ht. rewrite Hc in Hc1.
  rewrite !run_app.
  set (w := run' evs (boot g0)) in *.
  assert (Hsig' : signal_id SIGRTMIN (group w) = Ok sig).
  { unfold signal_id in *. rewrite Hcfg. exact Hsig. }
  pose proof (refresh_pending sig (group w) Hsig' Hc1 Hf) as Hrefresh.
  set (g1 := set_thread (wake_up (thread_ (group w))) (set_reset true (group w))) in *.
  assert (Hstep1 : step' (Refresh sig) w = mkWorld g1 (parked w)).
  { cbn [step]. rewrite Hrefresh. reflexivity. }
  pose proof (step_TimerRun (mkWorld g1 None) eq_refl Ht) as Hrun.
  split.
  - intros Hp. cbn [run fold_left]. rewrite Hstep1, Hp, Hrun.
    cbn [group]. unfold timer_before. cbn. rewrite Hf. cbn.
    split; [reflexivity|].
    unfold timer_after. cbn. rewrite Hf. reflexivity.
  - intros Hp. destruct (parked w) as [k|] eqn:Hpk; [|contradiction].
    cbn [run fold_left]. rewrite Hstep1.
    assert (Hk1 : parked_timer (mkWorld g1 (Some k))).
    { intros k' [= <-]. exact (Hk k Hpk). }
    pose proof (step_TimerWake (mkWorld g1 (Some k)) k Hk1 eq_refl) as Hwake.
    rewrite Hwake. cbn [group].
    assert (Hafter : timer_after g1 = g1).
    { unfold timer_after, g1. cbn. rewrite Hf. reflexivity. }
    rewrite Hafter, Hrun.
    split; [reflexivity|].
    cbn [group]. unfold timer_before. cbn. rewrite Hf. cbn.
    split; [reflexivity|].
    unfold timer_after. cbn. rewrite Hf. reflexivity.
Qed.

(** ** A pending reveal is not dropped *)

(** X11: only the timer thread consumes a pending reveal: if the flag is set
    before an event and clear after it, the event was the start of a timer
    round with the pointer away, and the group is Revealed after it.  No
    pointer event, click, trigger or wake-up clears the flag. *)
Theorem pending_reveal_kept ev w :
  parked_timer w ->
  reset_ (group w) = true ->
  reset_ (group (step' ev w)) = false ->
  ev = TimerRun /\ parked w = None /\ free_ (group w) = true /\
  reveal_state (group (step' ev w)) = Revealed.
Proof.
  intros Hk Hr. destruct ev; cbn [step group].
  - unfold handleMouseEnter. destruct (click_to_reveal (group w)); cbn; congruence.
  - unfold handleMouseLeave. destruct (negb _ && _); cbn; congruence.
  - unfold handleToggle. destruct (negb _ || _); cbn; [congruence|].
    destruct (negb _); cbn; congruence.
  - unfold refresh.
    destruct (Json.index (config_ (group w)) "signal") as [v|]; cbn; [|congruence].
    destruct (Json.asInt v) as [n|]; cbn; [|congruence].
    destruct (sig =? _); cbn; [|congruence].
    unfold handleToggle. destruct (negb _ || _); cbn.
    + destruct (free_ (group w)); cbn; congruence.
    + destruct (negb _); cbn; congruence.
  - unfold update. congruence.
  - unfold addWidget. destruct (getBox (group w)); cbn; congruence.
  - destruct (parked w) eqn:Hp; [congruence|].
    destruct (task_assigned (thread_ (group w))); [|congruence].
    rewrite timer_task_halves. cbn [settle group]. unfold timer_before.
    rewrite Hr. destruct (free_ (group w)); cbn; [|congruence].
    intros _. repeat split; reflexivity.
  - destruct (parked w) as [k|] eqn:Hp; [|congruence].
    rewrite (Hk k Hp). cbn [settle group]. unfold timer_after.
    destruct (free_ (group w) && negb (reset_ (group w))); cbn; congruence.
Qed.

(** ** How [refresh] reads the signal option *)

Lemma reachable_config_indexable g k :
  Reachable' g -> exists v, Json.index (config_ g) k = Ok v.
Proof.
  intros (name & id & config & vertical & g0 & evs & Hnew & <-).
  destruct (run_same_setup SIGRTMIN g0 evs) as (Hcfg & _).
  rewrite Hcfg.
  pose proof (construct_Ok _ _ _ _ _ _ _ _ Hnew) as (-> & _).
  destruct (construct_inv _ _ _ _ _ Hnew) as (s & b3 & d & _ & _ & Hd & _).
  exact (index_other _ _ _ k Hd).
Qed.

(** X12: [refresh] throws, for every code, exactly when the signal option has no
    int reading (a string, an array, an object, a number out of the int
    range), and then it throws JsonCpp's error; a missing signal option
    reads as 0, so that such a group answers to SIGRTMIN itself. *)
Theorem refresh_signal_reading (g : Group) :
  Reachable' g ->
  exists cfg_signal,
    Json.index (config_ g) "signal" = Ok cfg_signal /\
    (forall sig e, refresh' sig g = Throw e <-> Json.asInt cfg_signal = Throw e) /\
    (cfg_signal = Json.nullValue ->
     forall sig, after g (refresh' sig g) <> g -> sig = wrap_int SIGRTMIN).
Proof.
  intros Hreach.
  destruct (reachable_config_indexable g "signal" Hreach) as [v Hv].
  exists v. split; [exact Hv|]. split.
  - intros sig e. unfold refresh. rewrite Hv. cbn.
    destruct (Json.asInt v) as [n|e']; cbn; [|split; congruence].
    split; [|discriminate].
    destruct (sig =? _); [|discriminate].
    destruct (handleToggle (mkButton 1) g) as [handled g1].
    destruct handled; cbn; [discriminate|].
    destruct (free_ g1); discriminate.
  - intros -> sig. unfold refresh. rewrite Hv. cbn.
    rewrite Z.add_0_r.
    destruct (Z.eqb_spec sig (wrap_int SIGRTMIN)) as [->|_]; [reflexivity|].
    cbn. congruence.
Qed.

(** ** Click mode leaves the hover and timer state alone *)

Lemma setup_drawer_click vertical g g' :
  setup_drawer vertical g = Ok g' -> click_to_reveal g' = true ->
  interval_ g' = interval_ g /\ thread_ g' = thread_ g.
Proof.
  unfold setup_drawer. intros H Hc.
  do 9 bind_inv H.
  destruct a7 as [|]; cbn in H.
  - injection H as <-. split; reflexivity.
  - do 2 bind_inv H. injection H as <-. discriminate Hc.
Qed.

Lemma step_click_only f r i ev w :
  click_only f r i w -> click_only f r i (step' ev w).
Proof.
  intros (Hc & Hf & Hr & Hi & Ht & Hp).
  destruct ev; cbn [step].
  - unfold handleMouseEnter. rewrite Hc. repeat split; assumption.
  - unfold handleMouseLeave. rewrite Hc. repeat split; assumption.
  - unfold handleToggle. rewrite Hc. cbn.
    destruct (negb (button e =? 1)); cbn; [repeat split; assumption|].
    destruct (negb _); repeat split; assumption.
  - unfold refresh.
    destruct (Json.index (config_ (group w)) "signal") as [v|]; cbn;
      [|repeat split; assumption].
    destruct (Json.asInt v) as [n|]; cbn; [|repeat split; assumption].
    destruct (sig =? _); cbn; [|repeat split; assumption].
    unfold handleToggle. rewrite Hc. cbn.
    destruct (negb _); repeat split; assumption.
  - repeat split; assumption.
  - unfold addWidget. destruct (getBox (group w)); repeat split; assumption.
  - rewrite Hp, Ht. repeat split; assumption.
  - rewrite Hp. repeat split; assumption.
Qed.

(** X13: in click-to-reveal mode no event writes the pointer-free flag or the
    pending-reveal flag, wakes the thread or runs a timer round: these keep
    the values the object was constructed with. *)
Theorem click_mode_leaves_timer_state name id config vertical g0 evs :
  construct name id config vertical = Ok g0 ->
  click_to_reveal g0 = true ->
  free_ (group (run' evs (boot g0))) = free_init /\
  reset_ (group (run' evs (boot g0))) = reset_init /\
  interval_ (group (run' evs (boot g0))) = interval_init /\
  thread_ (group (run' evs (boot g0))) = new_SleeperThread /\
  parked (run' evs (boot g0)) = None.
Proof.
  intros Hg Hc.
  assert (H0 : click_only free_init reset_init interval_init (boot g0)).
  { destruct (construct_inv _ _ _ _ _ Hg) as (s & b3 & d & _ & _ & _ & Hcase).
    destruct Hcase as [(_ & g2 & Hg2 & ->) | (_ & ->)]; [|discriminate Hc].
    destruct (setup_drawer_click _ _ _ Hg2 Hc) as (Hi & Ht).
    apply setup_drawer_inv in Hg2
      as (d' & c1 & td & c2 & cl & c3 & ltr & c4 & click & Hrest).
    decompose [and] Hrest.
    unfold click_only. cbn in *.
    repeat split; congruence. }
  pose proof (run_invariant (click_only free_init reset_init interval_init)
                            (fun _ => true)
                            (fun ev w _ => step_click_only _ _ _ ev w)) as Hrun.
  assert (Hall : forallb (fun _ : Event => true) evs = true).
  { clear. induction evs; [reflexivity | assumption]. }
  destruct (Hrun evs (boot g0) Hall H0) as (_ & Hf & Hr & Hi & Ht & Hp).
  repeat split; assumption.
Qed.

(** ** Repeated pointer events *)

Lemma set_prelight_bits f i :
  0 <= i ->
  Z.testbit
    (Z.land (Z.lor f (Z.land Gtk.STATE_FLAG_PRELIGHT Gtk.ALLOWED_FLAGS))
            (Z.lnot (Z.land (Z.lnot Gtk.STATE_FLAG_PRELIGHT) Gtk.ALLOWED_FLAGS)))
    i
  = (if i =? 1 then true
     else Z.testbit f i && negb (Z.testbit Gtk.ALLOWED_FLAGS i)).
Proof.
  intros Hi.
  rewrite Z.land_spec, Z.lor_spec, Z.lnot_spec, !Z.land_spec, Z.lnot_spec by lia.
  change Gtk.STATE_FLAG_PRELIGHT with (2 ^ 1).
  rewrite Z.pow2_bits_eqb by lia.
  destruct (Z.eqb_spec i 1) as [->|Hne].
  - replace (Z.testbit Gtk.ALLOWED_FLAGS 1) with true by reflexivity.
    cbn. rewrite orb_true_r. reflexivity.
  - replace (1 =? i) with false by (symmetry; apply Z.eqb_neq; lia).
    destruct (Z.testbit f i), (Z.testbit Gtk.ALLOWED_FLAGS i); reflexivity.
Qed.

Lemma set_state_flags_twice b :
  Gtk.set_state_flags Gtk.STATE_FLAG_PRELIGHT true
    (Gtk.set_state_flags Gtk.STATE_FLAG_PRELIGHT true b)
  = Gtk.set_state_flags Gtk.STATE_FLAG_PRELIGHT true b.
Proof.
  destruct b as [o sp nm sc sf ch]. unfold Gtk.set_state_flags. cbn.
  f_equal. apply Z.bits_inj'. intros i Hi.
  rewrite !set_prelight_bits by exact Hi.
  destruct (i =? 1); [reflexivity|].
  destruct (Z.testbit sf i), (Z.testbit Gtk.ALLOWED_FLAGS i); reflexivity.
Qed.

Lemma set_after_unset_state_flags b :
  Gtk.set_state_flags Gtk.STATE_FLAG_PRELIGHT true
    (Gtk.unset_state_flags Gtk.STATE_FLAG_PRELIGHT b)
  = Gtk.set_state_flags Gtk.STATE_FLAG_PRELIGHT true b.
Proof.
  destruct b as [o sp nm sc sf ch]. unfold Gtk.set_state_flags, Gtk.unset_state_flags.
  cbn. f_equal. apply Z.bits_inj'. intros i Hi.
  rewrite !set_prelight_bits by exact Hi.
  destruct (Z.eqb_spec i 1) as [->|Hne]; [reflexivity|].
  rewrite Z.land_spec, Z.lnot_spec by lia.
  change Gtk.STATE_FLAG_PRELIGHT with (2 ^ 1).
  rewrite Z.pow2_bits_eqb by lia.
  replace (1 =? i) with false by (symmetry; apply Z.eqb_neq; lia).
  cbn. rewrite andb_true_r. reflexivity.
Qed.

Lemma show_group_twice g : show_group (show_group g) = show_group g.
Proof.
  unfold show_group, set_box, set_revealer. cbn.
  rewrite set_state_flags_twice. reflexivity.
Qed.

Lemma show_after_hide g : show_group (hide_group g) = show_group g.
Proof.
  unfold show_group, hide_group, set_box, set_revealer. cbn.
  rewrite set_after_unset_state_flags. reflexivity.
Qed.

(** X14: pointer events that repeat are harmless, and the last one decides: a
    second enter changes nothing, the same leave twice is the leave once,
    and an enter after a leave gives the object an enter alone would have
    given.  After a leave that follows an enter the pointer is free and the
    group Hidden and unmarked, as after the leave alone. *)
Theorem pointer_events_absorb (g : Group) (e1 e2 : GdkEventCrossing) :
  snd (handleMouseEnter e2 (snd (handleMouseEnter e1 g)))
    = snd (handleMouseEnter e1 g) /\
  snd (handleMouseLeave e1 (snd (handleMouseLeave e1 g)))
    = snd (handleMouseLeave e1 g) /\
  snd (handleMouseEnter e2 (snd (handleMouseLeave e1 g)))
    = snd (handleMouseEnter e2 g) /\
  (detail e2 <> Gtk.NOTIFY_INFERIOR ->
   free_ (snd (handleMouseLeave e2 (snd (handleMouseEnter e1 g))))
     = free_ (snd (handleMouseLeave e2 g)) /\
   reveal_state (snd (handleMouseLeave e2 (snd (handleMouseEnter e1 g))))
     = reveal_state (snd (handleMouseLeave e2 g)) /\
   visual_marker (snd (handleMouseLeave e2 (snd (handleMouseEnter e1 g))))
     = visual_marker (snd (handleMouseLeave e2 g))).
Proof.
  unfold handleMouseEnter, handleMouseLeave.
  destruct (click_to_reveal g) eqn:Hc; cbn.
  - rewrite Hc. cbn. repeat split; reflexivity.
  - split; [|split; [|split]].
    + rewrite Hc. cbn.
      transitivity (show_group (show_group (set_free false g)));
        [reflexivity | apply show_group_twice].
    + destruct (Gtk.notify_eqb (detail e1) Gtk.NOTIFY_INFERIOR) eqn:He; cbn.
      * rewrite Hc. reflexivity.
      * rewrite Hc. cbn.
        transitivity (hide_group (hide_group (set_free true g)));
          [reflexivity | apply hide_group_twice].
    + destruct (Gtk.notify_eqb (detail e1) Gtk.NOTIFY_INFERIOR) eqn:He; cbn.
      * rewrite Hc. reflexivity.
      * rewrite Hc. cbn.
        transitivity (show_group (hide_group (set_free false g)));
          [reflexivity | apply show_after_hide].
    + intros Hd.
      replace (Gtk.notify_eqb (detail e2) Gtk.NOTIFY_INFERIOR) with false
        by (destruct (detail e2); try reflexivity; contradiction).
      rewrite Hc. cbn.
      split; [reflexivity|]. split; [reflexivity|].
      rewrite !hide_group_marker. reflexivity.
Qed.

(** ** A timer round with the pointer away *)

(** X15: in hover mode, a whole round of the timer thread (the part before the
    sleep and the part after it, with no other event in between) that starts
    with the pointer away ends with the group Hidden, unmarked and with no
    reveal pending, whatever the state before the round. *)
Theorem timer_round_hides name id config vertical g0 evs :
  construct name id config vertical = Ok g0 ->
  is_drawer g0 = true -> click_to_reveal g0 = false ->
  free_ (group (run' evs (boot g0))) = true ->
  parked (run' evs (boot g0)) = None ->
  reveal_state (group (run' (evs ++ [TimerRun; TimerWake]) (boot g0))) = Hidden /\
  visual_marker (group (run' (evs ++ [TimerRun; TimerWake]) (boot g0))) = false /\
  reset_ (group (run' (evs ++ [TimerRun; TimerWake]) (boot g0))) = false /\
  parked (run' (evs ++ [TimerRun; TimerWake]) (boot g0)) = None.
Proof.
  intros Hg Hd Hc Hf Hp.
  destruct (run_same_setup SIGRTMIN g0 evs) as (_ & _ & _ & _ & _ & Ht).
  pose proof (construct_Ok _ _ _ _ _ _ _ _ Hg) as (_ & _ & _ & _ & _ & _ & Hta & _).
  rewrite Hta, Hd, Hc in Ht. cbn in Ht.
  rewrite run_app. set (w := run' evs (boot g0)) in *.
  cbn [run fold_left].
  pose proof (step_TimerRun w Hp Ht) as Hrun. rewrite Hrun.
  cbn [step parked settle group].
  unfold timer_before. rewrite Hf. cbn.
  destruct (reset_ (group w)) eqn:Hr; unfold timer_after; cbn; rewrite Hf, ?Hr; cbn.
  - split; [reflexivity|]. split; [apply hide_group_marker|].
    split; reflexivity.
  - split; [reflexivity|]. split; [apply hide_group_marker|].
    split; [exact Hr | reflexivity].
Qed.

(** ** Name and classes of the box *)

Lemma elem_of_add_class c cls l :
  c ∈ Gtk.add_class cls l <-> c = cls \/ c ∈ l.
Proof.
  unfold Gtk.add_class. case_bool_decide as Hin.
  - split; [auto|]. intros [->|Hc]; assumption.
  - rewrite !list_elem_of_In, in_app_iff. cbn. split.
    + intros [Hc|[Hc|[]]]; auto.
    + intros [Hc|Hc]; auto.
Qed.

Lemma elem_of_remove_class c cls l :
  c ∈ Gtk.remove_class cls l <-> c ∈ l /\ c <> cls.
Proof.
  unfold Gtk.remove_class.
  rewrite !list_elem_of_In, filter_In, negb_true_iff, String.eqb_neq.
  reflexivity.
Qed.

Lemma set_orientation_classes o b id :
  id <> "horizontal" -> id <> "vertical" ->
  (forall c, c ∈ Gtk.style_classes b <->
     c = Gtk.orientation_class (Gtk.orientation b) \/ (id <> "" /\ c = id)) ->
  forall c, c ∈ Gtk.style_classes (Gtk.set_orientation o b) <->
    c = Gtk.orientation_class (Gtk.orientation (Gtk.set_orientation o b))
    \/ (id <> "" /\ c = id).
Proof.
  intros Hh Hv Hb c. unfold Gtk.set_orientation.
  destruct (Gtk.orientation b) eqn:Ho, o; cbn [Gtk.orientation_eqb];
    try (rewrite Hb, Ho; reflexivity);
    cbn [Gtk.style_classes Gtk.orientation Gtk.orientation_class];
    rewrite elem_of_remove_class, elem_of_add_class, Hb;
    cbn [Gtk.orientation_class];
    split.
  - intros [[Hc|[Hc|[Hid Hc]]] Hne]; [auto | contradiction | auto].
  - intros [Hc|[Hid Hc]]; subst c; (split; [auto | congruence]).
  - intros [[Hc|[Hc|[Hid Hc]]] Hne]; [auto | contradiction | auto].
  - intros [Hc|[Hid Hc]]; subst c; (split; [auto | congruence]).
Qed.

Lemma named_box_classes name id vertical c :
  c ∈ Gtk.style_classes (named_box name id vertical) <->
  c = Gtk.orientation_class (Gtk.orientation (named_box name id vertical))
  \/ (id <> "" /\ c = id).
Proof.
  unfold named_box.
  destruct (String.eqb_spec id "") as [->|Hne]; cbn.
  - rewrite list_elem_of_singleton. split; [auto|].
    intros [Hc|[Hid _]]; [exact Hc | contradiction].
  - rewrite elem_of_add_class, list_elem_of_singleton. split.
    + intros [Hc|Hc]; auto.
    + intros [Hc|[_ Hc]]; auto.
Qed.

(** X16: the box is named after the module.  Its style classes are the
    class of its orientation, which the toolkit keeps, and the instance id
    unless the id is empty (for an id that is not itself the name of an
    orientation class); no event changes the name or the classes. *)
Theorem box_name_and_class name id config vertical g0 evs :
  construct name id config vertical = Ok g0 ->
  id <> "horizontal" -> id <> "vertical" ->
  Gtk.name (box (group (run' evs (boot g0)))) = name /\
  (forall c,
     c ∈ Gtk.style_classes (box (group (run' evs (boot g0)))) <->
     c = Gtk.orientation_class
           (Gtk.orientation (box (group (run' evs (boot g0)))))
     \/ (id <> "" /\ c = id)).
Proof.
  intros Hg Hh Hv.
  destruct (run_same_look g0 evs) as (_ & _ & Ho & Hn & Hcl & _).
  rewrite Hn, Hcl, Ho.
  destruct (construct_inv _ _ _ _ _ Hg) as (s & b3 & d & _ & Hb3 & _ & Hcase).
  assert (Hbox : Gtk.name (box g0) = Gtk.name b3 /\
                 Gtk.style_classes (box g0) = Gtk.style_classes b3 /\
                 Gtk.orientation (box g0) = Gtk.orientation b3).
  { destruct Hcase as [(_ & g2 & Hg2 & ->) | (_ & ->)];
      [|repeat split; reflexivity].
    apply setup_drawer_inv in Hg2
      as (d' & c1 & td & c2 & cl & c3 & ltr & c4 & click
          & _ & _ & _ & _ & _ & _ & _ & _ & _ & Hbox & _).
    cbn. rewrite Hbox. destruct ltr; repeat split; reflexivity. }
  destruct Hbox as (-> & -> & ->).
  assert (Hnb : Gtk.name (named_box name id vertical) = name).
  { unfold named_box. destruct (negb _); reflexivity. }
  assert (Hb : b3 = named_box name id vertical \/
               exists o, b3 = Gtk.set_orientation o (named_box name id vertical)).
  { unfold orient_box in Hb3.
    repeat match type of Hb3 with
           | (if ?c then _ else _) = _ => destruct c
           end;
      try discriminate; injection Hb3 as <-; eauto. }
  destruct Hb as [-> | [o ->]].
  - split; [exact Hnb|]. intros c. apply named_box_classes.
  - split.
    + destruct (set_orientation_keeps o (named_box name id vertical))
        as (_ & _ & ->). exact Hnb.
    + apply set_orientation_classes; try assumption.
      intros c. apply named_box_classes.
Qed.

End Further.

(** * The further properties at sample objects *)

Module FurtherFacts.
Import Sample MoreSamples.

Lemma orientation_follows_option_witness :
  make vertical_orientation = Ok (built vertical_orientation) /\
  Gtk.orientation (box (group (run SIGRTMIN busy_run
                                   (boot (built vertical_orientation)))))
    = Gtk.ORIENTATION_VERTICAL /\
  Gtk.orientation (revealer_box (group (run SIGRTMIN busy_run
                                            (boot (built vertical_orientation)))))
    = Gtk.ORIENTATION_HORIZONTAL.
Proof.
  split; [reflexivity|].
  destruct (orientation_follows_option SIGRTMIN true false seconds_max
              "group/sample" "" vertical_orientation false
              (built vertical_orientation) busy_run eq_refl)
    as (s & Hs & _ & _ & Hv & _ & Hr).
  injection Hs as <-. split; [exact (Hv eq_refl) | exact Hr].
Defined.


Lemma transition_duration_wraps_witness :
  make negative_duration_config = Ok (built negative_duration_config) /\
  Gtk.transition_duration
    (revealer (group (run SIGRTMIN busy_run
                          (boot (built negative_duration_config)))))
    = 4294967295.
Proof.
  split; [reflexivity|].
  destruct (transition_duration_wraps SIGRTMIN true false seconds_max
              "group/sample" "" negative_duration_config false
              (built negative_duration_config) busy_run
              [("transition-duration", Json.intValue (-1));
               ("transition-left-to-right", Json.booleanValue false)]
              eq_refl eq_refl)
    as (_ & Hint).
  { cbn. lia. }
  destruct (Hint eq_refl) as (n & Hn & _ & Hneg).
  injection Hn as <-. apply Hneg. lia.
Defined.

Lemma interval_from_option_witness :
  make hover_config = Ok (built hover_config) /\
  is_drawer (built hover_config) = true /\
  click_to_reveal (built hover_config) = false /\
  interval_ (group (run SIGRTMIN busy_run (boot (built hover_config))))
    = seconds 2 /\
  make once_config = Ok (built once_config) /\
  interval_ (group (run SIGRTMIN busy_run (boot (built once_config))))
    = seconds_max.
Proof.
  split; [reflexivity|]. split; [reflexivity|]. split; [reflexivity|].
  split.
  - destruct (interval_from_option SIGRTMIN true false seconds_max
                "group/sample" "" hover_config false (built hover_config)
                busy_run eq_refl eq_refl eq_refl) as (ci & Hci & _ & Hnum).
    injection Hci as <-. destruct (Hnum eq_refl) as (n & Hn & Hiv & _).
    injection Hn as <-. exact Hiv.
  - split; [reflexivity|].
    destruct (interval_from_option SIGRTMIN true false seconds_max
                "group/sample" "" once_config false (built once_config)
                busy_run eq_refl eq_refl eq_refl) as (ci & Hci & Hoff & _).
    injection Hci as <-. exact (Hoff eq_refl).
Defined.

Lemma timer_exists_iff_hover_drawer_witness :
  reachable (group (run SIGRTMIN busy_run (boot (built click_config)))) /\
  task_assigned
    (thread_ (group (run SIGRTMIN busy_run (boot (built click_config)))))
    = false.
Proof.
  pose proof (SampleFacts.built_reachable click_config busy_run eq_refl) as Hr.
  split; [exact Hr|].
  exact (timer_exists_iff_hover_drawer SIGRTMIN true false seconds_max _ Hr).
Defined.

Lemma children_follow_calls_witness :
  make hover_config = Ok (built hover_config) /\
  is_drawer (built hover_config) = true /\
  primarySequence (group (run SIGRTMIN busy_run (boot (built hover_config))))
    = [1%nat] /\
  overlaySequence (group (run SIGRTMIN busy_run (boot (built hover_config))))
    = [2; 3]%nat.
Proof.
  split; [reflexivity|]. split; [reflexivity|].
  destruct (children_follow_calls SIGRTMIN true false seconds_max
              "group/sample" "" hover_config false (built hover_config)
              busy_run eq_refl) as (Hdrawer & _).
  exact (Hdrawer eq_refl).
Defined.

Lemma packing_layout_witness :
  make negative_duration_config = Ok (built negative_duration_config) /\
  Gtk.children
    (box (group (run SIGRTMIN busy_run (boot (built negative_duration_config)))))
    = [revealer_packing false; widget_packing 1%nat].
Proof.
  split; [reflexivity|].
  destruct (packing_layout SIGRTMIN true false seconds_max
              "group/sample" "" negative_duration_config false
              (built negative_duration_config) busy_run eq_refl)
    as (d & Hd & _ & _ & Hdrawer).
  injection Hd as <-.
  destruct (Hdrawer eq_refl) as (c & Hc & Hbox).
  injection Hc as <-. exact Hbox.
Defined.

Lemma pointer_inside_stays_revealed_witness :
  make hover_config = Ok (built hover_config) /\
  click_to_reveal (built hover_config) = false /\
  forallb stays_inside inside_run = true /\
  reveal_state
    (group (run SIGRTMIN (busy_run ++ MouseEnter pointer_enter :: inside_run)
                (boot (built hover_config))))
    = Revealed.
Proof.
  split; [reflexivity|]. split; [reflexivity|]. split; [reflexivity|].
  destruct (pointer_inside_stays_revealed SIGRTMIN true false seconds_max
              "group/sample" "" hover_config false (built hover_config)
              busy_run pointer_enter inside_run eq_refl eq_refl eq_refl)
    as (Hs & _).
  exact Hs.
Defined.

Lemma trigger_reveals_then_hides_witness :
  make hover_config = Ok (built hover_config) /\
  free_ (group (run SIGRTMIN [TimerRun] (boot (built hover_config)))) = true /\
  signal_id SIGRTMIN (built hover_config) = Ok 42 /\
  parked (run SIGRTMIN [TimerRun] (boot (built hover_config))) <> None /\
  reveal_state
    (group (run SIGRTMIN ([TimerRun] ++ [Refresh 42; TimerWake; TimerRun])
                (boot (built hover_config))))
    = Revealed /\
  reveal_state
    (group (run SIGRTMIN
                ([TimerRun] ++ [Refresh 42; TimerWake; TimerRun; TimerWake])
                (boot (built hover_config))))
    = Hidden.
Proof.
  split; [reflexivity|]. split; [reflexivity|]. split; [reflexivity|].
  assert (Hp : parked (run SIGRTMIN [TimerRun] (boot (built hover_config)))
               <> None) by discriminate.
  split; [exact Hp|].
  destruct (trigger_reveals_then_hides SIGRTMIN true false seconds_max
              "group/sample" "" hover_config false (built hover_config)
              [TimerRun] 42 eq_refl eq_refl eq_refl eq_refl eq_refl)
    as (_ & Hasleep).
  destruct (Hasleep Hp) as (_ & Hshown & Hhidden).
  split; [exact Hshown | exact Hhidden].
Defined.

Lemma pending_reveal_kept_witness :
  parked_timer (run SIGRTMIN [Refresh 42] (boot (built hover_config))) /\
  reset_ (group (run SIGRTMIN [Refresh 42] (boot (built hover_config)))) = true /\
  reset_ (group (step SIGRTMIN TimerRun
                      (run SIGRTMIN [Refresh 42] (boot (built hover_config)))))
    = false /\
  reveal_state
    (group (step SIGRTMIN TimerRun
                 (run SIGRTMIN [Refresh 42] (boot (built hover_config)))))
    = Revealed.
Proof.
  assert (Hk : parked_timer (run SIGRTMIN [Refresh 42] (boot (built hover_config)))).
  { intros k Hk. discriminate Hk. }
  split; [exact Hk|]. split; [reflexivity|]. split; [reflexivity|].
  destruct (pending_reveal_kept SIGRTMIN TimerRun
              (run SIGRTMIN [Refresh 42] (boot (built hover_config)))
              Hk eq_refl eq_refl) as (_ & _ & _ & Hs).
  exact Hs.
Defined.

Lemma refresh_signal_reading_witness :
  reachable (built once_config) /\
  Json.index (config_ (built once_config)) "signal" = Ok Json.nullValue /\
  (forall sig, after (built once_config) (refresh SIGRTMIN sig (built once_config))
               <> built once_config -> sig = 34).
Proof.
  pose proof (SampleFacts.built_reachable once_config [] eq_refl) as Hr.
  split; [exact Hr|]. split; [reflexivity|].
  destruct (refresh_signal_reading SIGRTMIN true false seconds_max
              (built once_config) Hr) as (v & Hv & _ & Hnull).
  injection Hv as <-. exact (Hnull eq_refl).
Defined.

Lemma click_mode_leaves_timer_state_witness :
  make click_config = Ok (built click_config) /\
  click_to_reveal (built click_config) = true /\
  free_ (group (run SIGRTMIN (busy_run ++ inside_run) (boot (built click_config))))
    = true /\
  reset_ (group (run SIGRTMIN (busy_run ++ inside_run) (boot (built click_config))))
    = false.
Proof.
  split; [reflexivity|]. split; [reflexivity|].
  destruct (click_mode_leaves_timer_state SIGRTMIN true false seconds_max
              "group/sample" "" click_config false (built click_config)
              (busy_run ++ inside_run) eq_refl eq_refl) as (Hf & Hr & _).
  split; [exact Hf | exact Hr].
Defined.

Lemma pointer_events_absorb_witness :
  detail pointer_leave <> Gtk.NOTIFY_INFERIOR /\
  reveal_state
    (snd (handleMouseLeave pointer_leave
            (snd (handleMouseEnter pointer_enter (built hover_config)))))
    = reveal_state (snd (handleMouseLeave pointer_leave (built hover_config))).
Proof.
  assert (Hd : detail pointer_leave <> Gtk.NOTIFY_INFERIOR) by discriminate.
  split; [exact Hd|].
  destruct (pointer_events_absorb (built hover_config) pointer_enter pointer_leave)
    as (_ & _ & _ & Hlast).
  destruct (Hlast Hd) as (_ & Hs & _). exact Hs.
Defined.

Lemma timer_round_hides_witness :
  make hover_config = Ok (built hover_config) /\
  free_ (group (run SIGRTMIN [Refresh 42] (boot (built hover_config)))) = true /\
  parked (run SIGRTMIN [Refresh 42] (boot (built hover_config))) = None /\
  reveal_state
    (group (run SIGRTMIN ([Refresh 42] ++ [TimerRun; TimerWake])
                (boot (built hover_config))))
    = Hidden.
Proof.
  split; [reflexivity|]. split; [reflexivity|]. split; [reflexivity|].
  destruct (timer_round_hides SIGRTMIN true false seconds_max
              "group/sample" "" hover_config false (built hover_config)
              [Refresh 42] eq_refl eq_refl eq_refl eq_refl eq_refl) as (Hs & _).
  exact Hs.
Defined.

Lemma box_name_and_class_witness :
  make plain_config = Ok (built plain_config) /\
  "" <> "horizontal" /\ "" <> "vertical" /\
  Gtk.name (box (group (run SIGRTMIN busy_run (boot (built plain_config)))))
    = "group/sample" /\
  "vertical"
    ∈ Gtk.style_classes
        (box (group (run SIGRTMIN busy_run (boot (built plain_config))))).
Proof.
  assert (Hh : "" <> "horizontal") by discriminate.
  assert (Hv : "" <> "vertical") by discriminate.
  split; [reflexivity|]. split; [exact Hh|]. split; [exact Hv|].
  destruct (box_name_and_class SIGRTMIN true false seconds_max
              "group/sample" "" plain_config false (built plain_config)
              busy_run eq_refl Hh Hv) as (Hn & Hclasses).
  split; [exact Hn|].
  apply (Hclasses "vertical"). left. reflexivity.
Defined.

End FurtherFacts.
